(** * Phone number generator: expansion, artifact writing and partitioning

    A shallow embedding of the number-generation and file-partitioning core
    of [app.py] ([NumberGenerator], [FileManager], [api_generate]) together
    with the properties the design document states about it.

    Modelling conventions.
    - A Python [str] is represented by its UTF-8 encoding, a [string] of
      bytes.  Concatenation, equality and the ordering of [str] (by code
      point) coincide with concatenation, equality and the bytewise
      ordering of the encodings, and [len(s.encode('utf-8'))] is
      [String.length].
    - A Python [int] is a [Z].
    - The download directory is a finite map from file names to file
      contents.  Files are opened in text mode: a content is the text of
      the file, its lines ended by a single line feed and with no carriage
      return in it, which is what [generate_to_file] produces; for such a
      text the bytes on disk and the text read back are the same.
    - Input and output errors other than a missing file (a directory that
      cannot be written, a full disk) are not modelled. *)

From Stdlib Require Import ZArith Ascii String DecimalString DecimalPos DecimalZ.
From stdpp Require Import base numbers strings list gmap sorting.

Local Open Scope string_scope.
Local Open Scope list_scope.
Local Open Scope Z_scope.

(** ** Python primitives *)

Module Py.

(** [str(n)] for an integer. *)
Definition str (n : Z) : string := NilZero.string_of_int (Z.to_int n).

(** [len(s)] counted in encoded bytes. *)
Definition len (s : string) : Z := Z.of_nat (String.length s).

(** [c * k]: the character [c] repeated [k] times. *)
Fixpoint repeat_char (c : ascii) (k : nat) : string :=
  match k with
  | O => ""
  | S k' => String c (repeat_char c k')
  end.

(** [s.zfill(width)]: pad with zeros on the left, after a leading sign. *)
Definition zfill (width : nat) (s : string) : string :=
  let fill := repeat_char "0"%char (width - String.length s) in
  match s with
  | String "+"%char rest => String "+"%char (fill +:+ rest)
  | String "-"%char rest => String "-"%char (fill +:+ rest)
  | _ => fill +:+ s
  end.

(** [''.join(ls)], which is also what [writelines(ls)] puts in a fresh
    file. *)
Definition join (ls : list string) : string := foldr String.append "" ls.

(** Truthiness of an optional string: [None] and [''] are false. *)
Definition truthy (s : option string) : bool :=
  match s with
  | Some (String _ _) => true
  | _ => false
  end.

(** The line feed, and a string holding just that. *)
Definition newline : ascii := "010"%char.
Definition nl : string := String newline "".

(** [f.readline()] on a text stream, given as the text still to be
    read: the next line with its terminator (the rest of the text when
    no terminator is left, [''] at the end), and the stream after it. *)
Fixpoint readline (f : string) : string * string :=
  match f with
  | "" => ("", "")
  | String c rest =>
      if Ascii.eqb c newline then (String c "", rest)
      else let '(line, rest') := readline rest in (String c line, rest')
  end.

(** [s.replace(a, b)] for single characters of the ASCII range. *)
Fixpoint replace (a b : ascii) (s : string) : string :=
  match s with
  | "" => ""
  | String c rest => String (if Ascii.eqb c a then b else c) (replace a b rest)
  end.

(** [len(s)] in characters: the bytes that do not continue a UTF-8
    sequence. *)
Fixpoint char_count (s : string) : Z :=
  match s with
  | "" => 0
  | String c rest =>
      let n := Z.of_N (N_of_ascii c) in
      (if (128 <=? n) && (n <? 192) then 0 else 1) + char_count rest
  end.

(** [x or y] on strings. *)
Definition or_else (x y : string) : string :=
  match x with "" => y | _ => x end.

(** [x or None] on a string. *)
Definition or_none (x : string) : option string :=
  match x with "" => None | _ => Some x end.

(** *** Floats

    Every float that [_format_file_size] meets is an integer divided by
    a power of two, so a float is kept as that exact fraction
    [num / 2^scale].  A double has a 53 bit significand: [round53]
    rounds an integer to the nearest double, ties to even, which is
    what both [float(n)] and the true division [n / 1024] of an [int]
    do.  Later divisions of the float by 1024 only change the exponent.
    (Python raises [OverflowError] once the quotient passes the range
    of a double, around [2^1034]; byte counts come from the 64 bit
    [st_size], so that case lies outside the model.) *)

Definition round53_nat (n : Z) : Z :=
  let bits := Z.log2 n + 1 in
  if bits <=? 53 then n
  else
    let e := bits - 53 in
    let q := n / 2 ^ e in
    let r := n mod 2 ^ e in
    let half := 2 ^ (e - 1) in
    let q' := if r <? half then q
              else if half <? r then q + 1
              else if Z.even q then q else q + 1 in
    q' * 2 ^ e.

Definition round53 (n : Z) : Z :=
  if n <? 0 then - round53_nat (- n) else round53_nat n.

Inductive number :=
| Int (n : Z)
| Float (num : Z) (scale : Z).

(** [x < 1024] *)
Definition lt_1024 (x : number) : bool :=
  match x with
  | Int n => n <? 1024
  | Float num scale => num <? 1024 * 2 ^ scale
  end.

(** [x / 1024] *)
Definition div_1024 (x : number) : number :=
  match x with
  | Int n => Float (round53 n) 10
  | Float num scale => Float num (scale + 10)
  end.

(** The fraction [num / den] rounded to a whole number of hundredths,
    ties to even, and printed with two decimals: the [.2f] format,
    which rounds the exact value of the double correctly. *)
Definition hundredths (num den : Z) : Z :=
  let a := Z.abs num * 100 in
  let q := a / den in
  let r := a mod den in
  if 2 * r <? den then q
  else if den <? 2 * r then q + 1
  else if Z.even q then q else q + 1.

Definition two_decimals (num den : Z) : string :=
  let h := hundredths num den in
  (if num <? 0 then "-" else "")
    +:+ str (h / 100) +:+ "." +:+ zfill 2 (str (h mod 100)).

(** [f"{x:.2f}"] *)
Definition format_2f (x : number) : string :=
  match x with
  | Int n => two_decimals (round53 n) 1
  | Float num scale => two_decimals num (2 ^ scale)
  end.

End Py.

(** ** NumberGenerator *)

(** The attributes set by [NumberGenerator.__init__] from the
    configuration. *)
Record NumberGenerator := {
  batch_size : Z;
  max_count : Z;
  file_size_limit : Z
}.

(** The defaults of [__init__]. *)
Definition default_generator : NumberGenerator :=
  {| batch_size := 500; max_count := 10000000; file_size_limit := 20 |}.

(** [_format_file_size]: the loop over the units, then the fall-through
    to TB. *)
Fixpoint format_units (units : list string) (size : Py.number) : string :=
  match units with
  | [] => Py.format_2f size +:+ " TB"
  | unit :: rest =>
      if Py.lt_1024 size
      then Py.format_2f size +:+ " " +:+ unit
      else format_units rest (Py.div_1024 size)
  end.

Definition _format_file_size (size : Z) : string :=
  format_units ["B"; "KB"; "MB"; "GB"] (Py.Int size).

(** The closed form the design document gives: the unit is the first one
    at which the scaled value is below 1024 (TB when there is none), and
    the value is printed with two decimals. *)
Definition unit_names : list string := ["B"; "KB"; "MB"; "GB"; "TB"].

Definition unit_index (size : Z) : nat :=
  if size <? 1024 then 0%nat
  else if size <? 1024 ^ 2 then 1%nat
  else if size <? 1024 ^ 3 then 2%nat
  else if size <? 1024 ^ 4 then 3%nat
  else 4%nat.

Definition format_spec (size : Z) : string :=
  let k := unit_index size in
  Py.two_decimals (Py.round53 size) (1024 ^ Z.of_nat k)
    +:+ " " +:+ nth k unit_names "".


(** [_generate_numbers_for_location]: the identifiers of one segment.
    Each loop appends to [numbers] in turn. *)
Definition _generate_numbers_for_location
    (prefix suffix : string) (suffix_4 suffix_3 : option string) : list string :=
  let numbers : list string := [] in
  if Py.truthy suffix_4 then
    let full_number := prefix +:+ suffix +:+ default "" suffix_4 in
    numbers ++ [full_number]
  else if Py.truthy suffix_3 then
    foldl (fun numbers first_digit =>
             let full_number :=
               prefix +:+ suffix +:+ String first_digit "" +:+ default "" suffix_3 in
             numbers ++ [full_number])
          numbers (list_ascii_of_string "0123456789")
  else
    foldl (fun numbers last_four =>
             let last_four_str := Py.zfill 4 (Py.str last_four) in
             let full_number := prefix +:+ suffix +:+ last_four_str in
             numbers ++ [full_number])
          numbers (seqZ 0 10000).

(** ** The location table *)

(** A row of [phone_location]. *)
Record location := {
  loc_prefix : string;
  loc_suffix : string;
  loc_province : string;
  loc_city : string;
  loc_operator : Z
}.

(** [DatabaseManager.query_phone_locations]: the rows that match the
    prefix, the province and the city, and one of the operators when a
    non-empty list of them is given.  The query has no ORDER BY, so the
    order in which the database returns the rows is not fixed by the
    source; the rows are listed here in the order of the table, and
    nothing below rests on that order: [generate_numbers] collects the
    identifiers in a set and sorts them. *)
Definition query_phone_locations (db : list location)
    (prefix province city : string) (operators : option (list Z)) : list location :=
  List.filter (fun row =>
                 String.eqb (loc_prefix row) prefix &&
                 String.eqb (loc_province row) province &&
                 String.eqb (loc_city row) city &&
                 match operators with
                 | Some (op :: ops) => bool_decide (loc_operator row ∈ op :: ops)
                 | _ => true
                 end) db.

(** [generate_numbers] *)
Definition generate_numbers (db : list location) (prefix : string)
    (suffix suffix_3 : option string) (province city : string)
    (operators : option (list Z)) : list string :=
  let locations := query_phone_locations db prefix province city operators in
  match locations with
  | [] => []
  | _ =>
      let all_numbers :=
        foldl (fun all_numbers location =>
                 all_numbers ++
                 _generate_numbers_for_location prefix (loc_suffix location)
                                                suffix suffix_3)
              [] locations in
      let all_numbers := elements (list_to_set all_numbers : gset string) in
      merge_sort String.le all_numbers
  end.

(** ** The download directory *)

(** [os.path.getsize].  It raises for a missing file; every use below
    follows a write of that file or a test that it exists. *)
Definition getsize (fs : gmap string string) (name : string) : Z :=
  from_option Py.len 0 (fs !! name).

(** [generate_to_file]: [open(.., 'w')] starts from an empty file, each
    [write] appends to it. *)
Definition generate_to_file (fs : gmap string string)
    (numbers : list string) (filename : string)
  : (string * Z * string) * gmap string string :=
  let f := foldl (fun f number => f +:+ (number +:+ Py.nl)) "" numbers in
  let fs := <[filename := f]> fs in
  let file_size := getsize fs filename in
  let file_size_str := _format_file_size file_size in
  ((filename, file_size, file_size_str), fs).

(** ** FileManager *)

(** An entry of the list that [split_file_for_download] returns. *)
Record file_info := {
  name : string;
  size : string;
  url : string
}.

(** The inner loop of [split_file_for_download]: up to [n] lines are
    read; the loop stops early at the end of the stream, or once the
    bytes read reach [max_size]. *)
Fixpoint read_batch (max_size : Z) (n : nat) (f : string)
    (lines : list string) (current_size : Z) : list string * Z * string :=
  match n with
  | O => (lines, current_size, f)
  | S n' =>
      let '(line, f) := Py.readline f in
      match line with
      | "" => (lines, current_size, f)
      | _ =>
          let lines := lines ++ [line] in
          let current_size := current_size + Py.len line in
          if max_size <=? current_size then (lines, current_size, f)
          else read_batch max_size n' f lines current_size
      end
  end.

(** The bound of the inner loop, [range(500000)]. *)
Definition batch_lines : nat := Z.to_nat 500000.

Definition part_filename (part_number : Z) (filename : string) : string :=
  "part_" +:+ Py.str part_number +:+ "_" +:+ filename.

(** The [while True] loop.  [fuel] bounds the number of rounds; every
    round that goes on consumes a line, so the length of the text left
    to read is enough ([split_loop_runs]). *)
Fixpoint split_loop (fuel : nat) (max_size : Z) (filename : string)
    (f : string) (fs : gmap string string) (part_number : Z)
    (part_files : list file_info) : option (list file_info * gmap string string) :=
  match fuel with
  | O => None
  | S fuel' =>
      let '(lines, current_size, f) := read_batch max_size batch_lines f [] 0 in
      match lines with
      | [] => Some (part_files, fs)
      | _ =>
          let part_filename := part_filename part_number filename in
          let fs := <[part_filename := Py.join lines]> fs in
          let part_size := getsize fs part_filename in
          let part_size_str := _format_file_size part_size in
          let part_files :=
            part_files ++ [{| name := part_filename;
                              size := part_size_str;
                              url := "/download/" +:+ part_filename |}] in
          split_loop fuel' max_size filename f fs (part_number + 1) part_files
      end
  end.

(** [split_file_for_download] *)
Definition split_file_for_download (fs : gmap string string)
    (filename : string) (max_size_mb : Z)
  : option (list file_info * gmap string string) :=
  match fs !! filename with
  | None => Some ([], fs)
  | Some content =>
      let file_size := getsize fs filename in
      if file_size <=? max_size_mb * 1024 * 1024 then
        let file_size_str := _format_file_size file_size in
        Some ([{| name := filename;
                  size := file_size_str;
                  url := "/download/" +:+ filename |}], fs)
      else
        let max_size := max_size_mb * 1024 * 1024 in
        split_loop (S (String.length content)) max_size filename content fs 1 []
  end.

(** The lines of a text, terminators kept: what reading it with
    [readline] to the end yields. *)
Fixpoint splitlines (f : string) : list string :=
  match f with
  | "" => []
  | String c rest =>
      if Ascii.eqb c Py.newline then String c "" :: splitlines rest
      else match splitlines rest with
           | [] => [String c ""]
           | line :: lines => String c line :: lines
           end
  end.

(** ** The generation request *)

(** The body of a request: the values under the keys [prefix],
    [suffix_4], [suffix_3], [province], [city] and [operators]; a suffix
    may be null or missing. *)
Record request_data := {
  r_prefix : string;
  r_suffix_4 : option string;
  r_suffix_3 : option string;
  r_province : string;
  r_city : string;
  r_operators : list Z
}.

Record response := {
  code : Z;
  message : string;
  data : option (nat * list file_info)
}.

(** [generate_filename]; [timestamp] is the formatted time of the call.
    Only the province and the city are cleaned: the prefix, the suffix
    and the extension are copied into the name as they are given.  The
    source gives [extension] the default ["txt"], which its one caller
    leaves in place. *)
Definition generate_filename
    (prefix province city suffix extension timestamp : string) : string :=
  let province := Py.replace "\"%char "_"%char (Py.replace "/"%char "_"%char province) in
  let city := Py.replace "\"%char "_"%char (Py.replace "/"%char "_"%char city) in
  prefix +:+ "_" +:+ province +:+ "_" +:+ city +:+ "_" +:+ suffix
         +:+ "_" +:+ timestamp +:+ "." +:+ extension.

Section Request.

(** Two built-ins that rest on the Unicode character tables:
    [str.strip] and [str.isdigit]. *)
Variable strip : string -> string.
Variable isdigit : string -> bool.

(** [validate_input] *)
Definition validate_input (data : request_data) : bool * string :=
  let prefix := strip (r_prefix data) in
  match prefix with
  | "" => (false, "请输入手机号前3位号段")
  | _ =>
  if negb (Py.char_count prefix =? 3) || negb (isdigit prefix)
  then (false, "号段必须为3位数字") else
  let province := strip (r_province data) in
  match province with
  | "" => (false, "请选择省份")
  | _ =>
  let city := strip (r_city data) in
  match city with
  | "" => (false, "请选择城市")
  | _ =>
  let suffix_4 := r_suffix_4 data in
  let suffix_3 := r_suffix_3 data in
  let suffix_4 := if Py.truthy suffix_4 then strip (default "" suffix_4) else "" in
  let suffix_3 := if Py.truthy suffix_3 then strip (default "" suffix_3) else "" in
  match suffix_4, suffix_3 with
  | String _ _, String _ _ => (false, "后3位和后4位只能填写其一")
  | _, _ =>
  if match suffix_4 with
     | "" => false
     | _ => negb (Py.char_count suffix_4 =? 4) || negb (isdigit suffix_4)
     end
  then (false, "后4位必须为4位数字") else
  if match suffix_3 with
     | "" => false
     | _ => negb (Py.char_count suffix_3 =? 3) || negb (isdigit suffix_3)
     end
  then (false, "后3位必须为3位数字") else
  let operators := r_operators data in
  let valid_operators := [1; 2; 3; 4; 5] in
  match filter (fun op => op ∉ valid_operators) operators with
  | op :: _ => (false, "无效的运营商类型：" +:+ Py.str op)
  | [] => (true, "")
  end
  end end end end.

(** [api_generate], with the generator, the table, the clock and the
    download directory it works on.  The body of the handler is the body
    of a [try]; its [except] branch, which answers 500 when the body
    raises, is not part of the model, in which the request is a
    well-formed record, the table is at hand and no write fails.  What is
    proved of [api_generate] is therefore proved of the runs of the
    handler in which nothing raises. *)
Definition api_generate (number_generator : NumberGenerator)
    (db : list location) (timestamp : string) (fs : gmap string string)
    (data : request_data) : option (response * gmap string string) :=
  let '(valid, error_msg) := validate_input data in
  if negb valid then
    Some ({| code := 400; message := error_msg; data := None |}, fs)
  else
  let prefix := strip (r_prefix data) in
  let suffix_4_raw := r_suffix_4 data in
  let suffix_3_raw := r_suffix_3 data in
  let suffix_4 :=
    if Py.truthy suffix_4_raw && Py.truthy (Some (strip (default "" suffix_4_raw)))
    then strip (default "" suffix_4_raw) else "" in
  let suffix_3 :=
    if Py.truthy suffix_3_raw && Py.truthy (Some (strip (default "" suffix_3_raw)))
    then strip (default "" suffix_3_raw) else "" in
  let province := strip (r_province data) in
  let city := strip (r_city data) in
  let operators := r_operators data in
  let numbers :=
    generate_numbers db prefix (Py.or_none suffix_4) (Py.or_none suffix_3)
                     province city
                     (match operators with [] => None | _ => Some operators end) in
  match numbers with
  | [] => Some ({| code := 404; message := "未找到符合条件的号码"; data := None |}, fs)
  | _ =>
  if max_count number_generator <? Z.of_nat (length numbers) then
    Some ({| code := 400;
             message := "查询结果超过限制（最多"
                          +:+ Py.str (max_count number_generator)
                          +:+ "条），请缩小查询范围";
             data := None |}, fs)
  else
  let suffix := Py.or_else suffix_4 (Py.or_else suffix_3 "ALL") in
  let filename := generate_filename prefix province city suffix "txt" timestamp in
  let '((actual_filename, file_size, file_size_str), fs) :=
    generate_to_file fs numbers filename in
  let file_size_bytes := getsize fs actual_filename in
  if file_size_limit number_generator * 1024 * 1024 <? file_size_bytes then
    match split_file_for_download fs actual_filename 20 with
    | None => None
    | Some (files, fs) =>
        Some ({| code := 200; message := "生成成功";
                 data := Some (length numbers, files) |}, fs)
    end
  else
    let files := [{| name := actual_filename;
                     size := file_size_str;
                     url := "/download/" +:+ actual_filename |}] in
    Some ({| code := 200; message := "生成成功";
             data := Some (length numbers, files) |}, fs)
  end.

End Request.

(** ** Vocabulary of the statements *)

(** [a < b] on [str]. *)
Definition str_lt (a b : string) : Prop := String.ltb a b = true.

Definition is_digit (c : ascii) : bool :=
  let n := N_of_ascii c in (48 <=? n)%N && (n <=? 57)%N.

Fixpoint all_digits (s : string) : bool :=
  match s with
  | "" => true
  | String c rest => is_digit c && all_digits rest
  end.

(** No character of the string is a line feed. *)
Fixpoint no_newline (s : string) : bool :=
  match s with
  | "" => true
  | String c rest => negb (Ascii.eqb c Py.newline) && no_newline rest
  end.

(** The four-character block of [last_four]. *)
Definition local4 (last_four : Z) : string := Py.zfill 4 (Py.str last_four).

(** All strings of four digits, in dictionary order. *)
Definition digit_blocks : list string :=
  let digits := list_ascii_of_string "0123456789" in
  d1 ← digits; d2 ← digits; d3 ← digits; d4 ← digits;
  [String d1 (String d2 (String d3 (String d4 "")))].

(** Adjacent elements are in strictly ascending order. *)
Fixpoint ascending (l : list string) : bool :=
  match l with
  | a :: (b :: _) as rest => String.ltb a b && ascending rest
  | _ => true
  end.

(** The partitions of a text: each round of the [while] loop of
    [split_file_for_download] reads one batch of lines, until a round
    reads none. *)
Inductive batching (max_size : Z) : string -> list (list string) -> Prop :=
| batching_done f current_size f' :
    read_batch max_size batch_lines f [] 0 = ([], current_size, f') ->
    batching max_size f []
| batching_more f line lines current_size f' batches :
    read_batch max_size batch_lines f [] 0 = (line :: lines, current_size, f') ->
    batching max_size f' batches ->
    batching max_size f ((line :: lines) :: batches).

(** The entries returned for the batches, numbered from [part_number]. *)
Fixpoint part_infos (filename : string) (part_number : Z)
    (batches : list (list string)) : list file_info :=
  match batches with
  | [] => []
  | lines :: rest =>
      {| name := part_filename part_number filename;
         size := _format_file_size (Py.len (Py.join lines));
         url := "/download/" +:+ part_filename part_number filename |}
        :: part_infos filename (part_number + 1) rest
  end.

(** The directory after the batches are written. *)
Fixpoint write_parts (filename : string) (part_number : Z)
    (batches : list (list string)) (fs : gmap string string) : gmap string string :=
  match batches with
  | [] => fs
  | lines :: rest =>
      write_parts filename (part_number + 1) rest
                  (<[part_filename part_number filename := Py.join lines]> fs)
  end.

(** What holds of every batch: it has a line, its lines are whole
    lines, at most [batch_lines] of them, and the byte bound was not
    reached before its last line. *)
Definition batch_ok (max_size : Z) (lines : list string) : Prop :=
  lines <> [] /\
  Forall (fun line => line <> "") lines /\
  splitlines (Py.join lines) = lines /\
  (length lines <= batch_lines)%nat /\
  (forall k, (0 < k < length lines)%nat ->
             Py.len (Py.join (take k lines)) < max_size).

(** A small artifact of three identifiers, and a directory holding it. *)
Definition sample_artifact : string :=
  "13800130000" +:+ Py.nl +:+ "13800130001" +:+ Py.nl +:+ "13800130002" +:+ Py.nl.

Definition sample_dir : gmap string string := {[ "138_ALL.txt" := sample_artifact ]}.

(** The identifiers that [api_generate] obtains for a request: the call
    of [generate_numbers] it makes on the extracted parameters. *)
Definition requested_numbers (strip : string -> string)
    (db : list location) (data : request_data) : list string :=
  let clean raw :=
    if Py.truthy raw && Py.truthy (Some (strip (default "" raw)))
    then strip (default "" raw) else "" in
  generate_numbers db (strip (r_prefix data))
                   (Py.or_none (clean (r_suffix_4 data)))
                   (Py.or_none (clean (r_suffix_3 data)))
                   (strip (r_province data)) (strip (r_city data))
                   (match r_operators data with
                    | [] => None
                    | _ => Some (r_operators data)
                    end).

(** The candidates of a request: what the loop of [generate_numbers]
    over the matching rows has put end to end, before the duplicates are
    removed. *)
Definition requested_candidates (strip : string -> string)
    (db : list location) (data : request_data) : list string :=
  let clean raw :=
    if Py.truthy raw && Py.truthy (Some (strip (default "" raw)))
    then strip (default "" raw) else "" in
  let prefix := strip (r_prefix data) in
  foldl (fun all_numbers location =>
           all_numbers ++
           _generate_numbers_for_location prefix (loc_suffix location)
                                          (Py.or_none (clean (r_suffix_4 data)))
                                          (Py.or_none (clean (r_suffix_3 data))))
        []
        (query_phone_locations db prefix
                               (strip (r_province data)) (strip (r_city data))
                               (match r_operators data with
                                | [] => None
                                | _ => Some (r_operators data)
                                end)).

(** The name [api_generate] gives to the artifact of a request. *)
Definition requested_filename (strip : string -> string)
    (timestamp : string) (data : request_data) : string :=
  let clean raw :=
    if Py.truthy raw && Py.truthy (Some (strip (default "" raw)))
    then strip (default "" raw) else "" in
  generate_filename (strip (r_prefix data)) (strip (r_province data))
                    (strip (r_city data))
                    (Py.or_else (clean (r_suffix_4 data))
                                (Py.or_else (clean (r_suffix_3 data)) "ALL"))
                    "txt" timestamp.

(** The text of a file that holds the given identifiers, one per line. *)
Definition artifact_text (numbers : list string) : string :=
  Py.join ((fun number => number +:+ Py.nl) <$> numbers).

(** A request for the numbers of prefix 138 in one city that end in 567. *)
Definition sample_request : request_data :=
  {| r_prefix := "138"; r_suffix_4 := None; r_suffix_3 := Some "567";
     r_province := "北京"; r_city := "北京"; r_operators := [] |}.

(** A value is among the three that [generate_to_file] returns. *)
Definition reports (ret : string * Z * string) (n : Z) : Prop :=
  let '(filename, file_size, file_size_str) := ret in
  filename = Py.str n \/ file_size = n \/ file_size_str = Py.str n.

(** Two rows for one segment, served by two operators. *)
Definition shared_segment_db : list location :=
  [ {| loc_prefix := "138"; loc_suffix := "0013";
       loc_province := "北京"; loc_city := "北京"; loc_operator := 1 |};
    {| loc_prefix := "138"; loc_suffix := "0013";
       loc_province := "北京"; loc_city := "北京"; loc_operator := 2 |} ].

(** ** Vocabulary of the further properties *)

(** The last blocks that the expansion of a segment puts after the prefix
    and the suffix, by the mode of the filter. *)
Definition tails (suffix_4 suffix_3 : option string) : list string :=
  if Py.truthy suffix_4 then [default "" suffix_4]
  else if Py.truthy suffix_3 then
    (fun d => String d "" +:+ default "" suffix_3)
      <$> list_ascii_of_string "0123456789"
  else local4 <$> seqZ 0 10000.

(** How many identifiers one segment gives. *)
Definition expansion_size (suffix_4 suffix_3 : option string) : Z :=
  if Py.truthy suffix_4 then 1
  else if Py.truthy suffix_3 then 10
  else 10000.

(** The suffixes of the rows that match a filter. *)
Definition matching_suffixes (db : list location)
    (prefix province city : string) (operators : option (list Z)) : gset string :=
  list_to_set (loc_suffix <$> query_phone_locations db prefix province city operators).


(** The character occurs in the string. *)
Fixpoint has_char (c : ascii) (s : string) : bool :=
  match s with
  | "" => false
  | String c' rest => Ascii.eqb c' c || has_char c rest
  end.

(** What [validate_input] makes of an optional suffix: the stripped
    string, [''] for a null or empty one. *)
Definition stripped (strip : string -> string) (raw : option string) : string :=
  if Py.truthy raw then strip (default "" raw) else "".


(** ** Downloading *)

(** What [download_file] answers: the 404 answer, or the file sent as an
    attachment under its name. *)
Inductive download_response :=
| NotFound (answer : response)
| Attachment (download_name : string) (content : string).

(** [download_file] *)
Definition download_file (fs : gmap string string) (filename : string)
  : download_response :=
  match fs !! filename with
  | None => NotFound {| code := 404; message := "文件不存在或已过期"; data := None |}
  | Some content => Attachment filename content
  end.


(** ** Retention *)

Section Retention.

(** Times are floats.  Their type, the difference
    [current_time - mtime] and the test [file_age > expire_seconds]
    against the whole number of seconds are left open. *)
Variable time : Type.
Variable elapsed : time -> time -> time.
Variable exceeds : time -> Z -> bool.

(** What [cleanup_expired_files] looks at in an entry of the download
    directory: whether it is a regular file, when it was last modified,
    and whether [os.remove] succeeds on it. *)
Record dir_entry := {
  is_file : bool;
  mtime : time;
  removable : bool
}.

(** One round of the loop over the names of the directory. *)
Definition cleanup_round (current_time : time) (expire_seconds : Z)
    (state : gmap string dir_entry * Z) (filename : string)
  : gmap string dir_entry * Z :=
  let '(store, deleted_count) := state in
  match store !! filename with
  | Some entry =>
      if is_file entry then
        let file_age := elapsed current_time (mtime entry) in
        if exceeds file_age expire_seconds then
          if removable entry
          then (delete filename store, deleted_count + 1)
          else (store, deleted_count)
        else (store, deleted_count)
      else (store, deleted_count)
  | None => (store, deleted_count)
  end.

(** [os.listdir] *)
Definition listdir (store : gmap string dir_entry) : list string :=
  (map_to_list store).*1.

(** [cleanup_expired_files]; the directory is [None] when it does not
    exist.  [expire_hours] is a whole number, as in the default
    configuration. *)
Definition cleanup_expired_files (expire_hours : Z) (current_time : time)
    (download_dir : option (gmap string dir_entry))
  : Z * option (gmap string dir_entry) :=
  match download_dir with
  | None => (0, None)
  | Some store =>
      let expire_seconds := expire_hours * 3600 in
      let '(store, deleted_count) :=
        foldl (cleanup_round current_time expire_seconds) (store, 0)
              (listdir store) in
      (deleted_count, Some store)
  end.

(** The entries that a sweep removes. *)
Definition swept (expire_hours : Z) (current_time : time)
    (entry : dir_entry) : bool :=
  is_file entry
  && exceeds (elapsed current_time (mtime entry)) (expire_hours * 3600)
  && removable entry.

End Retention.

Arguments is_file {time} _.
Arguments mtime {time} _.
Arguments removable {time} _.

(** A directory with an old file, a recent file, an old file that cannot
    be removed and a subdirectory; times in seconds. *)
Definition sample_store : gmap string (dir_entry Z) :=
  {[ "old.txt" := {| is_file := true; mtime := 0; removable := true |};
     "new.txt" := {| is_file := true; mtime := 90000; removable := true |};
     "held.txt" := {| is_file := true; mtime := 0; removable := false |};
     "sub" := {| is_file := false; mtime := 0; removable := true |} ]}.


(** ** Import of the table ([final_import.py]) *)

(** [DataImporter._batch_insert]: [executemany] inserts the rows of the
    batch in order.  The table is the list of its rows, in the order of
    insertion; a row is the list of its fields. *)
Definition _batch_insert (table data_batch : list (list string))
  : list (list string) :=
  table ++ data_batch.

(** What the loop of [_read_and_import_csv] carries along. *)
Record import_state := {
  table : list (list string);
  data_batch : list (list string);
  insert_count : Z;
  skipped_count : Z
}.

(** One round of the loop over the rows after the header. *)
Definition import_round (batch_size : Z) (state : import_state)
    (row : list string) : import_state :=
  if Z.of_nat (length row) =? 5 then
    let data_batch := data_batch state ++ [row] in
    let insert_count := insert_count state + 1 in
    if batch_size <=? Z.of_nat (length data_batch) then
      {| table := _batch_insert (table state) data_batch;
         data_batch := [];
         insert_count := insert_count;
         skipped_count := skipped_count state |}
    else
      {| table := table state;
         data_batch := data_batch;
         insert_count := insert_count;
         skipped_count := skipped_count state |}
  else
    {| table := table state;
       data_batch := data_batch state;
       insert_count := insert_count state;
       skipped_count := skipped_count state + 1 |}.

(** [DataImporter._read_and_import_csv] on the rows that [csv.reader]
    yields: whether it succeeded, the table afterwards, and the two
    counts it prints.  Errors of decoding and of the database are not
    modelled. *)
Definition _read_and_import_csv (table0 : list (list string))
    (reader : list (list string)) : bool * list (list string) * Z * Z :=
  match reader with
  | [] => (false, table0, 0, 0)
  | header :: rows =>
      let batch_size := 1000 in
      let state :=
        foldl (import_round batch_size)
              {| table := table0; data_batch := [];
                 insert_count := 0; skipped_count := 0 |} rows in
      let table :=
        match data_batch state with
        | [] => table state
        | _ => _batch_insert (table state) (data_batch state)
        end in
      (true, table, insert_count state, skipped_count state)
  end.

(** [DataImporter.get_db_record_count]; the database is [None] when its
    file does not exist, and a database without the table counts as
    empty. *)
Definition get_db_record_count (db : option (list (list string))) : Z :=
  match db with
  | Some table => Z.of_nat (length table)
  | None => 0
  end.

(** [DataImporter.import_data]; the CSV file is [None] when it does not
    exist.  Connecting and [CREATE TABLE IF NOT EXISTS] make a database
    that did not exist an empty one. *)
Definition import_data (force : bool) (csv : option (list (list string)))
    (db : option (list (list string))) : bool * option (list (list string)) :=
  match csv with
  | None => (false, db)
  | Some reader =>
      if negb force && bool_decide (is_Some db) && (0 <? get_db_record_count db)
      then (true, db)
      else
        let db := Some (default [] db) in
        let db := if force && bool_decide (is_Some db) then Some [] else db in
        let '(ok, table, _, _) := _read_and_import_csv (default [] db) reader in
        (ok, Some table)
  end.

(** The rows that the import keeps: those of five fields. *)
Definition has_five_fields (row : list string) : bool :=
  Z.of_nat (length row) =? 5.

(** A CSV file with a header, two good rows, a short row and a blank
    line. *)
Definition sample_csv : list (list string) :=
  [ ["prefix"; "suffix"; "province"; "city"; "operator"];
    ["138"; "0013"; "北京"; "北京"; "1"];
    ["138"; "0013"; "北京"];
    [];
    ["139"; "0571"; "浙江"; "杭州"; "2"] ].


(** ** Configuration ([config.py]) *)

Section Configuration.

(** The values of a configuration that are not dictionaries (numbers,
    strings, booleans, lists, [None]) are left open. *)
Variable scalar : Type.

(** A value of the configuration.  A dictionary is the list of its
    items in the order of insertion; its keys are all different. *)
#[warnings="-register-all"]
Inductive cfg :=
| Scalar (v : scalar)
| Dict (items : list (string * cfg)).

(** [d.get(key)] *)
Fixpoint dict_get (key : string) (d : list (string * cfg)) : option cfg :=
  match d with
  | [] => None
  | (k, v) :: rest => if String.eqb k key then Some v else dict_get key rest
  end.

(** [d[key] = value]: in place for a key that is there, at the end for
    a new one. *)
Fixpoint dict_set (key : string) (value : cfg) (d : list (string * cfg))
  : list (string * cfg) :=
  match d with
  | [] => [(key, value)]
  | (k, v) :: rest =>
      if String.eqb k key then (k, value) :: rest
      else (k, v) :: dict_set key value rest
  end.

(** What [_merge_config] stores under a key that holds [current] in the
    result when the user gives [value]: the merge of the two when both
    are dictionaries, else the value of the user. *)
Fixpoint merge_value (current : option cfg) (value : cfg) {struct value} : cfg :=
  match current, value with
  | Some (Dict result_items), Dict user_items =>
      Dict ((fix merge_items (result user : list (string * cfg)) {struct user} :=
               match user with
               | [] => result
               | (key, value) :: rest =>
                   merge_items
                     (dict_set key (merge_value (dict_get key result) value) result)
                     rest
               end) result_items user_items)
  | _, _ => value
  end.

(** [Config._merge_config]: the loop over the items of the user's
    dictionary, started from a copy of the default one. *)
Definition _merge_config (default user : list (string * cfg))
  : list (string * cfg) :=
  let result := default in
  foldl (fun result '(key, value) =>
           dict_set key (merge_value (dict_get key result) value) result)
        result user.

(** [key.split('.')] *)
Fixpoint split_dots (key : string) : list string :=
  match key with
  | "" => [""]
  | String c rest =>
      if Ascii.eqb c "."%char then "" :: split_dots rest
      else match split_dots rest with
           | [] => [String c ""]
           | k :: keys => String c k :: keys
           end
  end.

(** The loop of [Config.get] over the keys: [None] when it leaves by
    [return default]. *)
Fixpoint walk (value : cfg) (keys : list string) : option cfg :=
  match keys with
  | [] => Some value
  | k :: rest =>
      match value with
      | Dict items =>
          match dict_get k items with
          | Some value => walk value rest
          | None => None
          end
      | Scalar _ => None
      end
  end.

(** [Config.get] *)
Definition get (_config : list (string * cfg)) (key : string) (default : cfg)
  : cfg :=
  let keys := split_dots key in
  match walk (Dict _config) keys with
  | Some value => value
  | None => default
  end.

(** The keys of a dictionary are all different, and so in the
    dictionaries inside it. *)
Fixpoint well_formed (value : cfg) : Prop :=
  match value with
  | Scalar _ => True
  | Dict items =>
      NoDup items.*1 /\
      (fix all (items : list (string * cfg)) : Prop :=
         match items with
         | [] => True
         | (_, v) :: rest => well_formed v /\ all rest
         end) items
  end.

(** The user's configuration says nothing on a path: following the
    keys through its dictionaries ends at a key that is missing. *)
Inductive silent_on : list (string * cfg) -> list string -> Prop :=
| silent_here user k keys :
    dict_get k user = None -> silent_on user (k :: keys)
| silent_below user k items keys :
    dict_get k user = Some (Dict items) ->
    silent_on items keys ->
    silent_on user (k :: keys).

End Configuration.

Arguments Scalar {scalar} _.
Arguments Dict {scalar} _.
Arguments dict_get {scalar} _ _.
Arguments dict_set {scalar} _ _ _.
Arguments merge_value {scalar} _ _.
Arguments _merge_config {scalar} _ _.
Arguments walk {scalar} _ _.
Arguments get {scalar} _ _ _.
Arguments well_formed {scalar} _.
Arguments silent_on {scalar} _ _.

(** The generator and download sections of the default configuration,
    and a user's configuration that sets one limit. *)
Definition sample_default : list (string * cfg Z) :=
  [ ("generator", Dict [ ("max_count", Scalar 10000000);
                         ("batch_size", Scalar 500);
                         ("file_size_limit", Scalar 20) ]);
    ("download", Dict [ ("expire_hours", Scalar 24) ]) ].

Definition sample_user : list (string * cfg Z) :=
  [ ("generator", Dict [ ("max_count", Scalar 5000) ]) ].


(** ** The lists of places *)

(** [DatabaseManager.get_provinces]:
    [SELECT DISTINCT province ... ORDER BY province]. *)
Definition get_provinces (db : list location) : list string :=
  merge_sort String.le
    (elements (list_to_set (loc_province <$> db) : gset string)).

(** [DatabaseManager.get_cities]:
    [SELECT DISTINCT city ... WHERE province = ? ORDER BY city]. *)
Definition get_cities (db : list location) (province : string) : list string :=
  merge_sort String.le
    (elements (list_to_set
                 (loc_city <$> List.filter
                                 (fun row => String.eqb (loc_province row) province)
                                 db) : gset string)).

(** * Properties *)

Example format_1536 : _format_file_size 1536 = "1.50 KB".
Proof. reflexivity. Qed.
Example format_tie_down : _format_file_size 1152 = "1.12 KB".
Proof. reflexivity. Qed.
Example format_tie_up : _format_file_size 1408 = "1.38 KB".
Proof. reflexivity. Qed.
Example format_rounds_to_1024 : _format_file_size 1048575 = "1024.00 KB".
Proof. reflexivity. Qed.
Example format_past_53_bits : _format_file_size (2 ^ 53 + 1) = "8192.00 TB".
Proof. vm_compute. reflexivity. Qed.

(** *** Properties of the float model *)

Lemma round53_exact n : 0 <= n < 2 ^ 53 -> Py.round53 n = n.
Proof.
  intros [Hn Hlt]. unfold Py.round53, Py.round53_nat.
  destruct (Z.ltb_spec n 0) as [?|_]; [lia|].
  destruct (Z.leb_spec (Z.log2 n + 1) 53) as [_|Hbits]; [reflexivity|].
  destruct (Z.eq_dec n 0) as [->|Hnz]; [discriminate Hbits|].
  assert (Z.log2 n < 53) by (apply Z.log2_lt_pow2; lia). lia.
Qed.

Lemma round53_large n : 2 ^ 53 <= n -> 2 ^ 53 <= Py.round53 n.
Proof.
  intros Hn. unfold Py.round53, Py.round53_nat.
  assert (0 < n) as Hpos by lia.
  destruct (Z.ltb_spec n 0) as [?|_]; [lia|].
  destruct (Z.leb_spec (Z.log2 n + 1) 53) as [_|Hbits]; [exact Hn|].
  set (e := Z.log2 n + 1 - 53).
  assert (0 < e) as He by (unfold e; lia).
  assert (0 < 2 ^ e) as Hpe by (apply Z.pow_pos_nonneg; lia).
  assert (2 ^ 52 * 2 ^ e <= n) as Hlow.
  { rewrite <- Z.pow_add_r by lia.
    replace (52 + e) with (Z.log2 n) by (unfold e; lia).
    apply Z.log2_spec, Hpos. }
  assert (2 ^ 52 <= n / 2 ^ e) as Hq.
  { apply Z.div_le_lower_bound; lia. }
  assert (2 <= 2 ^ e) as H2e.
  { change 2 with (2 ^ 1) at 1. apply Z.pow_le_mono_r; lia. }
  set (q := n / 2 ^ e) in *.
  assert (forall q', q <= q' -> 2 ^ 53 <= q' * 2 ^ e) as Hfin.
  { intros q' Hq'. change (2 ^ 53) with (2 ^ 52 * 2). nia. }
  repeat match goal with |- context [if ?b then _ else _] => destruct b end;
    apply Hfin; lia.
Qed.

(** Below [2^53] the thresholds of the loop are met by the double exactly
    when they are met by the integer. *)
Lemma round53_ltb n c :
  0 <= n -> c <= 2 ^ 53 -> (Py.round53 n <? c) = (n <? c).
Proof.
  intros Hn Hc. destruct (Z.lt_ge_cases n (2 ^ 53)) as [Hlt|Hge].
  - rewrite round53_exact; [reflexivity | lia].
  - pose proof (round53_large n Hge).
    destruct (Z.ltb_spec (Py.round53 n) c), (Z.ltb_spec n c); lia || reflexivity.
Qed.

(** [hundredths] is a nearest whole number of hundredths. *)
Lemma hundredths_nearest num den :
  0 < den ->
  2 * Z.abs (Py.hundredths num den * den - Z.abs num * 100) <= den.
Proof.
  intros Hden. unfold Py.hundredths.
  pose proof (Z.div_mod (Z.abs num * 100) den ltac:(lia)) as Hdm.
  pose proof (Z.mod_pos_bound (Z.abs num * 100) den Hden) as Hr.
  set (a := Z.abs num * 100) in *.
  set (q := a / den) in *. set (r := a mod den) in *.
  repeat match goal with |- context [if ?b then _ else _] => destruct b eqn:? end;
    rewrite ?Z.ltb_lt, ?Z.ltb_ge in *; nia.
Qed.

(** C9. For a byte count [size] (non-negative, within the range of a
    double) [_format_file_size] picks the first of B, KB, MB, GB at which
    the size divided by that power of 1024 is below 1024, TB when there
    is none, and prints the scaled value with two decimals; the scaled
    value is exact below [2^53].  So 500 gives "500.00 B", 2048 gives
    "2.00 KB" and 3 * 1024 * 1024 gives "3.00 MB". *)
Theorem format_file_size_correct size :
  0 <= size < 2 ^ 1024 ->
  _format_file_size size = format_spec size /\
  (size < 2 ^ 53 -> Py.round53 size = size) /\
  _format_file_size 500 = "500.00 B" /\
  _format_file_size 2048 = "2.00 KB" /\
  _format_file_size (1024 * 1024 * 3) = "3.00 MB".
Proof.
  intros [Hsize _].
  split; [|split; [intros; apply round53_exact; lia | repeat split; reflexivity]].
  unfold _format_file_size, format_spec, unit_index.
  cbn [format_units Py.lt_1024 Py.div_1024 Py.format_2f].
  destruct (Z.ltb_spec size 1024) as [|_]; [reflexivity|].
  rewrite !round53_ltb by (lia || (vm_compute; discriminate)).
  change (1024 * 2 ^ 10) with (1024 ^ 2).
  change (1024 * 2 ^ (10 + 10)) with (1024 ^ 3).
  change (1024 * 2 ^ (10 + 10 + 10)) with (1024 ^ 4).
  repeat match goal with
         | |- context [if ?b then _ else _] => destruct b
         end; reflexivity.
Qed.

Lemma format_file_size_correct_witness :
  0 <= 2048 < 2 ^ 1024 /\ _format_file_size 2048 = format_spec 2048.
Proof.
  split; [split; reflexivity || discriminate |].
  apply (format_file_size_correct 2048). split; reflexivity || discriminate.
Defined.

(** ** The ordering of strings *)

Lemma str_lt_compare a b : str_lt a b <-> (a ?= b)%string = Lt.
Proof.
  unfold str_lt, String.ltb. destruct (a ?= b)%string; split; congruence.
Qed.

Lemma compare_refl a : (a ?= a)%string = Eq.
Proof.
  induction a as [|c a IH]; [done|]. cbn [String.compare].
  unfold Ascii.compare. by rewrite N.compare_refl.
Qed.

Lemma str_lt_le_ne a b : str_lt a b <-> String.le a b /\ a <> b.
Proof.
  rewrite str_lt_compare. unfold String.le, String.leb.
  destruct (a ?= b)%string eqn:Hc; simpl; split.
  - discriminate.
  - intros [_ Hne]. destruct Hne. by apply String.compare_eq_iff.
  - intros _. split; [done|]. intros ->. rewrite compare_refl in Hc. discriminate.
  - done.
  - discriminate.
  - intros [[] _].
Qed.

#[local] Instance str_lt_irreflexive : Irreflexive str_lt.
Proof. intros a [_ Hne]%str_lt_le_ne. by destruct Hne. Qed.

#[local] Instance str_lt_transitive : Transitive str_lt.
Proof.
  intros a b c [Hab Hne]%str_lt_le_ne [Hbc _]%str_lt_le_ne.
  apply str_lt_le_ne. split; [by etrans|].
  intros ->. destruct Hne. by apply (anti_symm String.le).
Qed.

(** A common prefix does not change the comparison. *)
Lemma compare_app p a b : (p +:+ a ?= p +:+ b)%string = (a ?= b)%string.
Proof.
  induction p as [|c p IH]; [done|].
  change ((String c (p +:+ a) ?= String c (p +:+ b))%string = (a ?= b)%string).
  cbn [String.compare]. pose proof (compare_refl (String c "")) as Hc.
  cbn [String.compare] in Hc. destruct (Ascii.compare c c); done.
Qed.

Lemma str_lt_app p a b : str_lt a b -> str_lt (p +:+ a) (p +:+ b).
Proof. rewrite !str_lt_compare, compare_app. done. Qed.

Lemma ascending_Sorted l : ascending l = true -> Sorted str_lt l.
Proof.
  induction l as [|a [|b l] IH]; intros Hasc.
  - constructor.
  - repeat constructor.
  - cbn [ascending] in Hasc. apply andb_true_iff in Hasc as [Hab Hrest].
    constructor; [by apply IH|]. by constructor.
Qed.

Lemma StronglySorted_str_lt_NoDup l : StronglySorted str_lt l -> NoDup l.
Proof.
  induction 1 as [|a l _ IH Hall]; constructor; [|done].
  intros Hin. rewrite Forall_forall in Hall.
  by apply (irreflexivity str_lt a), Hall.
Qed.

Lemma StronglySorted_str_lt_le l :
  StronglySorted str_lt l -> StronglySorted String.le l.
Proof.
  induction 1 as [|a l _ IH Hall]; constructor; [done|].
  eapply Forall_impl; [exact Hall|]. by intros b [? _]%str_lt_le_ne.
Qed.

Lemma StronglySorted_le_NoDup_lt l :
  StronglySorted String.le l -> NoDup l -> StronglySorted str_lt l.
Proof.
  induction 1 as [|a l _ IH Hall]; intros Hnd; [constructor|].
  apply NoDup_cons in Hnd as [Hnotin Hnd].
  constructor; [by apply IH|].
  rewrite Forall_forall in Hall |- *. intros b Hb.
  apply str_lt_le_ne. split; [by apply Hall|]. by intros ->.
Qed.

(** ** Loops that append *)

Lemma foldl_append_one {A B} (f : B -> A) (l : list B) (acc : list A) :
  foldl (fun acc x => acc ++ [f x]) acc l = acc ++ (f <$> l).
Proof.
  revert acc. induction l as [|x l IH]; intros acc; simpl.
  - by rewrite app_nil_r.
  - by rewrite IH, <- app_assoc.
Qed.

Lemma foldl_append_many {A B} (f : B -> list A) (l : list B) (acc : list A) :
  foldl (fun acc x => acc ++ f x) acc l = acc ++ (l ≫= f).
Proof.
  revert acc. induction l as [|x l IH]; intros acc; simpl.
  - by rewrite app_nil_r.
  - by rewrite IH, <- app_assoc.
Qed.

(** ** Expansion of one segment *)

Lemma expansion_full prefix suffix suffix_4 suffix_3 :
  Py.truthy suffix_4 = false -> Py.truthy suffix_3 = false ->
  _generate_numbers_for_location prefix suffix suffix_4 suffix_3
  = (fun d => prefix +:+ suffix +:+ d) <$> (local4 <$> seqZ 0 10000).
Proof.
  intros H4 H3. unfold _generate_numbers_for_location. rewrite H4, H3.
  rewrite (foldl_append_one (fun i => prefix +:+ suffix +:+ local4 i)).
  by rewrite <- list_fmap_compose.
Qed.

Lemma local4_digit_blocks : local4 <$> seqZ 0 10000 = digit_blocks.
Proof. vm_compute. reflexivity. Qed.

Lemma digit_blocks_ascending : ascending digit_blocks = true.
Proof. vm_compute. reflexivity. Qed.

Lemma digit_blocks_sorted : StronglySorted str_lt digit_blocks.
Proof.
  apply Sorted_StronglySorted; [apply _|].
  apply ascending_Sorted, digit_blocks_ascending.
Qed.

Lemma is_digit_elem c :
  is_digit c = true <-> c ∈ list_ascii_of_string "0123456789".
Proof.
  split.
  - destruct c as [[] [] [] [] [] [] [] []]; try discriminate; intros _;
      cbn [list_ascii_of_string]; set_solver.
  - cbn [list_ascii_of_string]. intros Hc.
    repeat (apply elem_of_cons in Hc as [->|Hc]; [reflexivity|]).
    by apply elem_of_nil in Hc.
Qed.

Lemma elem_of_digit_blocks d :
  d ∈ digit_blocks <-> String.length d = 4%nat /\ all_digits d = true.
Proof.
  unfold digit_blocks. split.
  - intros Hd.
    apply list_elem_of_bind in Hd as (d1 & Hd & H1).
    apply list_elem_of_bind in Hd as (d2 & Hd & H2).
    apply list_elem_of_bind in Hd as (d3 & Hd & H3).
    apply list_elem_of_bind in Hd as (d4 & Hd & H4).
    apply is_digit_elem in H1, H2, H3, H4.
    apply list_elem_of_singleton in Hd as ->. cbn [all_digits String.length].
    split; [done|]. by rewrite H1, H2, H3, H4.
  - intros [Hlen Hdig].
    destruct d as [|d1 [|d2 [|d3 [|d4 [|]]]]]; try discriminate Hlen.
    cbn [all_digits] in Hdig.
    apply andb_true_iff in Hdig as [H1 Hdig].
    apply andb_true_iff in Hdig as [H2 Hdig].
    apply andb_true_iff in Hdig as [H3 Hdig].
    apply andb_true_iff in Hdig as [H4 _].
    apply is_digit_elem in H1, H2, H3, H4.
    apply list_elem_of_bind; exists d1; split; [|exact H1].
    apply list_elem_of_bind; exists d2; split; [|exact H2].
    apply list_elem_of_bind; exists d3; split; [|exact H3].
    apply list_elem_of_bind; exists d4; split; [|exact H4].
    by apply list_elem_of_singleton.
Qed.

(** ** Concatenation of strings *)

Lemma app_cons c s t : String c s +:+ t = String c (s +:+ t).
Proof. reflexivity. Qed.

Lemma app_empty_l s : "" +:+ s = s.
Proof. reflexivity. Qed.

Lemma app_empty_r s : s +:+ "" = s.
Proof. induction s as [|c s IH]; [done|]. by rewrite app_cons, IH. Qed.

Lemma app_assoc_str s t u : s +:+ (t +:+ u) = (s +:+ t) +:+ u.
Proof. induction s as [|c s IH]; [done|]. by rewrite !app_cons, IH. Qed.

Lemma length_app_str s t :
  String.length (s +:+ t) = (String.length s + String.length t)%nat.
Proof.
  induction s as [|c s IH]; [done|].
  rewrite app_cons. cbn [String.length]. by rewrite IH.
Qed.

Lemma len_app s t : Py.len (s +:+ t) = Py.len s + Py.len t.
Proof. unfold Py.len. rewrite length_app_str. lia. Qed.

Lemma all_digits_app s t : all_digits (s +:+ t) = all_digits s && all_digits t.
Proof.
  induction s as [|c s IH]; [done|].
  rewrite app_cons. cbn [all_digits]. by rewrite IH, andb_assoc.
Qed.

(** C5. With a three-digit prefix, a four-digit suffix and no exact
    suffix asked for, the expansion of a segment has exactly 10,000
    entries, all different, each of eleven digits; entry [i] is the prefix,
    the suffix and [i] written with four digits, zero-padded; every block
    0000 to 9999 occurs; and the entries are in strictly ascending
    order. *)
Theorem expansion_full_correct prefix suffix suffix_4 suffix_3 :
  String.length prefix = 3%nat -> all_digits prefix = true ->
  String.length suffix = 4%nat -> all_digits suffix = true ->
  Py.truthy suffix_4 = false -> Py.truthy suffix_3 = false ->
  exists out,
    _generate_numbers_for_location prefix suffix suffix_4 suffix_3 = out /\
    Z.of_nat (length out) = 10000 /\
    NoDup out /\
    Forall (fun number => String.length number = 11%nat /\
                          all_digits number = true /\
                          exists d, number = prefix +:+ suffix +:+ d /\
                                    String.length d = 4%nat) out /\
    (forall i, 0 <= i < 10000 ->
               out !! Z.to_nat i = Some (prefix +:+ suffix +:+ local4 i)) /\
    (forall d, String.length d = 4%nat -> all_digits d = true ->
               prefix +:+ suffix +:+ d ∈ out) /\
    StronglySorted str_lt out.
Proof.
  intros Hp Hpd Hs Hsd H4 H3. eexists. split; [reflexivity|].
  rewrite (expansion_full _ _ _ _ H4 H3).
  assert (StronglySorted str_lt
            ((fun d => prefix +:+ suffix +:+ d) <$> digit_blocks)) as Hsorted.
  { apply (StronglySorted_fmap _ str_lt); [|apply digit_blocks_sorted].
    intros a b Hab. by do 2 apply str_lt_app. }
  split; [|split; [|split; [|split; [|split]]]].
  - rewrite !length_fmap, length_seqZ. lia.
  - rewrite local4_digit_blocks. by apply StronglySorted_str_lt_NoDup.
  - rewrite local4_digit_blocks. apply Forall_fmap, Forall_forall.
    intros d [Hlen Hdig]%elem_of_digit_blocks. cbn.
    rewrite !length_app_str, !all_digits_app, Hp, Hpd, Hs, Hsd, Hlen, Hdig.
    split; [done|]. split; [done|]. by exists d.
  - intros i Hi. rewrite !list_lookup_fmap.
    rewrite lookup_seqZ_lt by lia. cbn.
    replace (0 + Z.of_nat (Z.to_nat i)) with i by lia. reflexivity.
  - intros d Hlen Hdig. rewrite local4_digit_blocks.
    apply list_elem_of_fmap. exists d. split; [done|].
    by apply elem_of_digit_blocks.
  - by rewrite local4_digit_blocks.
Qed.

Lemma expansion_full_correct_witness :
  exists out,
    _generate_numbers_for_location "138" "0013" None None = out /\
    Z.of_nat (length out) = 10000.
Proof.
  destruct (expansion_full_correct "138" "0013" None None)
    as (out & Hout & Hlen & _); try reflexivity.
  exists out. split; assumption.
Defined.

(** ** Generation over all segments *)

Lemma expansion_full_sorted prefix suffix suffix_4 suffix_3 :
  Py.truthy suffix_4 = false -> Py.truthy suffix_3 = false ->
  StronglySorted str_lt
    (_generate_numbers_for_location prefix suffix suffix_4 suffix_3).
Proof.
  intros H4 H3. rewrite (expansion_full _ _ _ _ H4 H3), local4_digit_blocks.
  apply (StronglySorted_fmap _ str_lt); [|apply digit_blocks_sorted].
  intros a b Hab. by do 2 apply str_lt_app.
Qed.

Lemma expansion_full_length prefix suffix suffix_4 suffix_3 :
  Py.truthy suffix_4 = false -> Py.truthy suffix_3 = false ->
  Z.of_nat (length (_generate_numbers_for_location prefix suffix suffix_4 suffix_3))
  = 10000.
Proof.
  intros H4 H3. rewrite (expansion_full _ _ _ _ H4 H3).
  rewrite !length_fmap, length_seqZ. lia.
Qed.

(** Sorting the elements of a set gives a strictly ascending list of
    those elements. *)
Lemma sort_set_ascending (X : gset string) :
  StronglySorted str_lt (merge_sort String.le (elements X)).
Proof.
  apply StronglySorted_le_NoDup_lt.
  - apply StronglySorted_merge_sort; apply _.
  - rewrite merge_sort_Permutation. apply NoDup_elements.
Qed.

(** A list that is already strictly ascending comes back unchanged from
    the set and the sort. *)
Lemma sort_set_of_ascending (l : list string) :
  StronglySorted str_lt l ->
  merge_sort String.le (elements (list_to_set l : gset string)) = l.
Proof.
  intros Hl. apply (StronglySorted_unique String.le).
  - apply StronglySorted_merge_sort; apply _.
  - by apply StronglySorted_str_lt_le.
  - rewrite merge_sort_Permutation.
    by apply elements_list_to_set, StronglySorted_str_lt_NoDup.
Qed.

Lemma generate_numbers_unfold db prefix suffix suffix_3 province city operators :
  generate_numbers db prefix suffix suffix_3 province city operators
  = match query_phone_locations db prefix province city operators with
    | [] => []
    | locations =>
        merge_sort String.le
          (elements (list_to_set
             (locations ≫= fun location =>
                _generate_numbers_for_location prefix (loc_suffix location)
                                               suffix suffix_3) : gset string))
    end.
Proof.
  unfold generate_numbers.
  destruct (query_phone_locations db prefix province city operators); [done|].
  by rewrite (foldl_append_many
                (fun location => _generate_numbers_for_location
                                   prefix (loc_suffix location) suffix suffix_3)).
Qed.

Lemma generate_numbers_sorted db prefix suffix suffix_3 province city operators :
  StronglySorted str_lt
    (generate_numbers db prefix suffix suffix_3 province city operators).
Proof.
  rewrite generate_numbers_unfold.
  destruct (query_phone_locations db prefix province city operators);
    [constructor | apply sort_set_ascending].
Qed.

(** C4. The list that [generate_numbers] returns is strictly ascending
    as strings and has no duplicates, and it holds exactly the
    identifiers of the matching segments.  When exactly two segments
    match, with the same suffix, and no exact suffix is asked for, it has
    10,000 entries. *)
Theorem generate_numbers_ascending
    db prefix suffix suffix_3 province city operators :
  exists out,
    generate_numbers db prefix suffix suffix_3 province city operators = out /\
    StronglySorted str_lt out /\
    NoDup out /\
    (forall number,
        number ∈ out <->
        exists location,
          location ∈ query_phone_locations db prefix province city operators /\
          number ∈ _generate_numbers_for_location
                     prefix (loc_suffix location) suffix suffix_3) /\
    (forall l1 l2,
        query_phone_locations db prefix province city operators = [l1; l2] ->
        loc_suffix l1 = loc_suffix l2 ->
        Py.truthy suffix = false -> Py.truthy suffix_3 = false ->
        Z.of_nat (length out) = 10000).
Proof.
  eexists. split; [reflexivity|]. rewrite generate_numbers_unfold.
  destruct (query_phone_locations db prefix province city operators)
    as [|l0 ls] eqn:Hq.
  - split; [constructor|]. split; [constructor|]. split.
    + intros number. split; [by intros ?%elem_of_nil|].
      by intros (? & ?%elem_of_nil & _).
    + discriminate.
  - set (locations := l0 :: ls).
    pose proof (generate_numbers_sorted db prefix suffix suffix_3
                                        province city operators) as Hsorted.
    rewrite generate_numbers_unfold, Hq in Hsorted. fold locations in Hsorted.
    split; [exact Hsorted|]. split; [by apply StronglySorted_str_lt_NoDup|].
    split.
    + intros number. rewrite merge_sort_Permutation, elem_of_elements.
      rewrite elem_of_list_to_set, list_elem_of_bind.
      split; intros (location & ? & ?); by exists location.
    + intros l1 l2 [= -> ->] Hsuf H4 H3. subst locations.
      cbn [mbind list_bind]. rewrite app_nil_r, <- Hsuf.
      rewrite list_to_set_app_L, (idemp_L (∪)).
      rewrite sort_set_of_ascending by by apply expansion_full_sorted.
      by apply expansion_full_length.
Qed.

Lemma generate_numbers_ascending_witness :
  Z.of_nat (length (generate_numbers shared_segment_db "138" None None
                                     "北京" "北京" None)) = 10000.
Proof.
  destruct (generate_numbers_ascending shared_segment_db "138" None None
                                       "北京" "北京" None)
    as (out & <- & _ & _ & _ & Hlen).
  by apply (Hlen _ _ eq_refl).
Defined.

(** ** Reading lines *)

Lemma join_cons line lines : Py.join (line :: lines) = line +:+ Py.join lines.
Proof. reflexivity. Qed.

Lemma join_app ls1 ls2 : Py.join (ls1 ++ ls2) = Py.join ls1 +:+ Py.join ls2.
Proof.
  induction ls1 as [|l ls1 IH]; [done|].
  cbn [app]. by rewrite !join_cons, IH, app_assoc_str.
Qed.

Lemma app_eq_empty s t : s +:+ t = "" -> s = "" /\ t = "".
Proof. by destruct s. Qed.

Lemma splitlines_cons c rest :
  splitlines (String c rest)
  = if Ascii.eqb c Py.newline then String c "" :: splitlines rest
    else match splitlines rest with
         | [] => [String c ""]
         | line :: lines => String c line :: lines
         end.
Proof. reflexivity. Qed.

Lemma readline_cons c rest :
  Py.readline (String c rest)
  = if Ascii.eqb c Py.newline then (String c "", rest)
    else let '(line, rest') := Py.readline rest in (String c line, rest').
Proof. reflexivity. Qed.

Lemma readline_empty : Py.readline "" = ("", "").
Proof. reflexivity. Qed.

(** What one [readline] gives on a stream that is not at its end: a
    non-empty line, the stream after it, and a line boundary between the
    two. *)
Lemma readline_spec f line f' :
  Py.readline f = (line, f') -> f <> "" ->
  line <> "" /\ line +:+ f' = f /\
  forall g, (f' = "" -> g = "") -> splitlines (line +:+ g) = line :: splitlines g.
Proof.
  revert line f'. induction f as [|c rest IH]; intros line f' Hread Hne; [done|].
  rewrite readline_cons in Hread.
  destruct (Ascii.eqb c Py.newline) eqn:Hc.
  - injection Hread as <- <-. split; [done|]. split; [done|].
    intros g _. rewrite app_cons, app_empty_l. by rewrite splitlines_cons, Hc.
  - destruct (Py.readline rest) as [l r] eqn:Hrest. injection Hread as <- <-.
    split; [done|]. destruct rest as [|c' rest'].
    + injection Hrest as <- <-. split; [done|].
      intros g ->; [|done]. by rewrite app_empty_r, splitlines_cons, Hc.
    + destruct (IH l r eq_refl) as (_ & Happ & Hsplit); [done|].
      split; [by rewrite app_cons, Happ|].
      intros g Hg. by rewrite app_cons, splitlines_cons, Hc, (Hsplit g Hg).
Qed.

Lemma readline_end f f' : Py.readline f = ("", f') -> f = "" /\ f' = "".
Proof.
  intros Hread. destruct f as [|c rest]; [by injection Hread as <-|].
  by destruct (readline_spec _ _ _ Hread) as (Hne & _).
Qed.

(** The inner loop, started with [lines] and [current_size]: it adds the
    lines [new], which are whole lines of the stream, and leaves [f']. *)
Lemma read_batch_spec max_size n :
  forall f lines current_size,
  exists new f',
    read_batch max_size n f lines current_size
    = (lines ++ new, current_size + Py.len (Py.join new), f') /\
    Py.join new +:+ f' = f /\
    splitlines f = new ++ splitlines f' /\
    splitlines (Py.join new) = new /\
    (length new <= n)%nat /\
    (forall k, (0 < k < length new)%nat ->
               current_size + Py.len (Py.join (take k new)) < max_size) /\
    (max_size <= current_size + Py.len (Py.join new) \/
     length new = n \/ f' = "") /\
    (new = [] -> n <> 0%nat -> f = "") /\
    Forall (fun line => line <> "") new.
Proof.
  induction n as [|n IH]; intros f lines current_size.
  { exists [], f. cbn. rewrite app_nil_r, Z.add_0_r.
    repeat split; try done; try lia; auto. }
  cbn [read_batch]. destruct (Py.readline f) as [line f1] eqn:Hread.
  destruct line as [|c line'].
  { apply readline_end in Hread as [-> ->]. exists [], "". cbn.
    rewrite app_nil_r, Z.add_0_r. repeat split; try done; try lia; auto. }
  set (line := String c line') in *.
  assert (f <> "") as Hf by (intros ->; discriminate Hread).
  destruct (readline_spec _ _ _ Hread Hf) as (Hline & Happ & Hsplit).
  destruct (Z.leb_spec max_size (current_size + Py.len line)) as [Hmax|Hmax].
  - exists [line], f1. rewrite join_cons. cbn [Py.join foldr].
    rewrite app_empty_r.
    split; [done|]. split; [done|].
    split; [by rewrite <- Happ; apply Hsplit|].
    split; [by rewrite <- (app_empty_r line) at 1; apply Hsplit|].
    split; [cbn; lia|]. split; [cbn; lia|]. split; [by left|].
    split; [done|]. by constructor.
  - destruct (IH f1 (lines ++ [line]) (current_size + Py.len line))
      as (new & f' & -> & Hjoin & Hlines & Hwhole & Hlen & Hbound & Hstop & _ & Hne).
    exists (line :: new), f'. rewrite join_cons, len_app, <- app_assoc.
    split; [by rewrite Z.add_assoc|].
    split; [by rewrite <- app_assoc_str, Hjoin|].
    split; [by rewrite <- Happ, (Hsplit f1), Hlines|].
    split.
    { rewrite Hsplit, Hwhole; [done|]. intros ->.
      by apply app_eq_empty in Hjoin as [-> _]. }
    split; [cbn; lia|]. split.
    { intros [|k] Hk; [lia|]. cbn [take]. rewrite join_cons, len_app.
      destruct k as [|k].
      - rewrite take_0. change (Py.len (Py.join [])) with 0. lia.
      - rewrite Z.add_assoc. apply Hbound. cbn in Hk. lia. }
    split; [|split; [done | by constructor]].
    cbn [length]. rewrite Z.add_assoc. destruct Hstop as [?|[?|?]]; auto.
Qed.

(** ** The outer loop *)

Lemma batch_lines_nonzero : batch_lines <> 0%nat.
Proof. unfold batch_lines. lia. Qed.

Lemma getsize_insert fs name content :
  getsize (<[name := content]> fs) name = Py.len content.
Proof. unfold getsize. by rewrite lookup_insert_eq. Qed.

Lemma split_loop_unfold fuel max_size filename f fs part_number part_files :
  split_loop (S fuel) max_size filename f fs part_number part_files
  = let '(lines, current_size, f) := read_batch max_size batch_lines f [] 0 in
    match lines with
    | [] => Some (part_files, fs)
    | _ =>
        let part_filename := part_filename part_number filename in
        let fs := <[part_filename := Py.join lines]> fs in
        let part_size := getsize fs part_filename in
        let part_size_str := _format_file_size part_size in
        let part_files :=
          part_files ++ [{| name := part_filename;
                            size := part_size_str;
                            url := "/download/" +:+ part_filename |}] in
        split_loop fuel max_size filename f fs (part_number + 1) part_files
    end.
Proof. reflexivity. Qed.

(** With more rounds allowed than the stream has characters the loop
    returns: the entries of the batches, and the directory with the
    batches written. *)
Lemma split_loop_runs max_size filename fuel :
  forall f fs part_number part_files,
  (String.length f < fuel)%nat ->
  exists batches,
    batching max_size f batches /\
    split_loop fuel max_size filename f fs part_number part_files
    = Some (part_files ++ part_infos filename part_number batches,
            write_parts filename part_number batches fs).
Proof.
  induction fuel as [|fuel IH]; intros f fs part_number part_files Hfuel; [lia|].
  rewrite split_loop_unfold.
  destruct (read_batch_spec max_size batch_lines f [] 0)
    as (new & f' & Hread & Hjoin & _ & _ & _ & _ & _ & _ & Hne).
  rewrite app_nil_l in Hread. rewrite Hread.
  destruct new as [|line lines].
  - exists []. split; [by econstructor|]. by rewrite app_nil_r.
  - cbv zeta. rewrite getsize_insert.
    destruct (IH f' (<[part_filename part_number filename
                       := Py.join (line :: lines)]> fs)
                 (part_number + 1)
                 (part_files ++
                    [{| name := part_filename part_number filename;
                        size := _format_file_size (Py.len (Py.join (line :: lines)));
                        url := "/download/" +:+ part_filename part_number filename |}]))
      as (batches & Hbatches & ->).
    { apply Forall_cons in Hne as [Hline _].
      rewrite <- Hjoin, join_cons, !length_app_str in Hfuel.
      destruct line; [done|]. cbn [String.length] in Hfuel. lia. }
    exists ((line :: lines) :: batches). split; [by econstructor|].
    cbn [part_infos write_parts]. by rewrite <- app_assoc.
Qed.

Lemma batching_end max_size batches : batching max_size "" batches -> batches = [].
Proof.
  inversion 1 as [|f line lines cs f' bs Hread]; [done|]. subst.
  destruct (read_batch_spec max_size batch_lines "" [] 0)
    as (new & f'' & Hread' & Hjoin & _ & _ & _ & _ & _ & _ & Hne).
  rewrite app_nil_l, Hread in Hread'. injection Hread' as <- _ _.
  apply Forall_cons in Hne as [Hline _].
  rewrite join_cons in Hjoin. by apply app_eq_empty in Hjoin as [[? _]%app_eq_empty _].
Qed.

(** The batches are the lines of the stream, cut at line boundaries. *)
Lemma batching_spec max_size f batches :
  batching max_size f batches ->
  concat batches = splitlines f /\
  Py.join (Py.join <$> batches) = f /\
  Forall (batch_ok max_size) batches /\
  (forall i lines,
      batches !! i = Some lines ->
      max_size <= Py.len (Py.join lines) \/
      length lines = batch_lines \/
      S i = length batches).
Proof.
  induction 1 as [f cs f' Hread|f line lines cs f' batches Hread Hrest IH].
  - destruct (read_batch_spec max_size batch_lines f [] 0)
      as (new & f'' & Hread' & _ & _ & _ & _ & _ & _ & Hend & _).
    rewrite app_nil_l, Hread in Hread'. injection Hread' as <- _ _.
    rewrite (Hend eq_refl batch_lines_nonzero).
    split; [done|]. split; [done|]. split; [constructor|]. by intros i lines [=].
  - destruct IH as (Hconcat & Hjoins & Hok & Hstops).
    destruct (read_batch_spec max_size batch_lines f [] 0)
      as (new & f'' & Hread' & Hjoin & Hlines & Hwhole & Hlen & Hbound & Hstop & _ & Hne).
    rewrite app_nil_l, Hread in Hread'. injection Hread' as <- _ <-.
    rewrite Z.add_0_l in Hstop.
    split; [by rewrite Hlines, <- Hconcat|].
    split; [by rewrite fmap_cons, join_cons, Hjoins|].
    split.
    { constructor; [|done]. by repeat split. }
    intros [|i] b Hb.
    + injection Hb as <-. destruct Hstop as [?|[?| ->]]; auto.
      right; right. by rewrite (batching_end _ _ Hrest).
    + cbn in Hb. destruct (Hstops i b Hb) as [?|[?|?]]; auto.
      right; right. cbn [length]. lia.
Qed.

(** ** Names of the partitions *)

Lemma str_inj a b : Py.str a = Py.str b -> a = b.
Proof.
  intros Hab. apply DecimalZ.to_int_inj.
  assert (forall z, NilZero.int_of_string (Py.str z) = Some (Z.to_int z)) as Hparse.
  { intros z. apply NilZero.isi; destruct z; try discriminate;
      cbn; intros [= Hnil]; by apply DecimalPos.Unsigned.to_uint_nonnil in Hnil. }
  pose proof (Hparse a) as Ha. rewrite Hab, Hparse in Ha. by injection Ha.
Qed.

Lemma app_inv_tail_str s t x : s +:+ x = t +:+ x -> s = t.
Proof.
  revert t. induction s as [|c s IH]; intros [|d t] Heq; [done| | |].
  - apply (f_equal String.length) in Heq.
    rewrite ?app_cons, ?app_empty_l in Heq. cbn [String.length] in Heq.
    rewrite ?length_app_str in Heq. lia.
  - apply (f_equal String.length) in Heq.
    rewrite ?app_cons, ?app_empty_l in Heq. cbn [String.length] in Heq.
    rewrite ?length_app_str in Heq. lia.
  - rewrite !app_cons in Heq. injection Heq as -> Heq. f_equal. by apply IH.
Qed.

Lemma part_filename_inj a b filename :
  part_filename a filename = part_filename b filename -> a = b.
Proof.
  unfold part_filename. intros Heq. apply (inj (String.app "part_")) in Heq.
  rewrite !(app_assoc_str _ "_" filename) in Heq.
  apply app_inv_tail_str in Heq. apply (app_inv_tail_str _ _ "_") in Heq.
  by apply str_inj.
Qed.

Lemma part_filename_fresh n filename : part_filename n filename <> filename.
Proof.
  unfold part_filename. intros Heq. apply (f_equal String.length) in Heq.
  rewrite !length_app_str in Heq. cbn in Heq. lia.
Qed.

(** ** The directory after the split *)

Lemma write_parts_other filename name :
  forall batches part_number fs,
  (forall j, 0 <= j -> name <> part_filename (part_number + j) filename) ->
  write_parts filename part_number batches fs !! name = fs !! name.
Proof.
  induction batches as [|lines batches IH]; intros part_number fs Hname; [done|].
  cbn [write_parts]. rewrite IH.
  - apply lookup_insert_ne. specialize (Hname 0). rewrite Z.add_0_r in Hname.
    intros Heq. by apply Hname.
  - intros j Hj. replace (part_number + 1 + j) with (part_number + (1 + j)) by lia.
    apply Hname. lia.
Qed.

Lemma write_parts_lookup filename :
  forall batches part_number fs i lines,
  batches !! i = Some lines ->
  write_parts filename part_number batches fs
    !! part_filename (part_number + Z.of_nat i) filename = Some (Py.join lines).
Proof.
  induction batches as [|b batches IH]; intros part_number fs i lines Hi; [done|].
  cbn [write_parts]. destruct i as [|i].
  - injection Hi as ->. rewrite write_parts_other.
    + rewrite Z.add_0_r. apply lookup_insert_eq.
    + intros j Hj Heq%part_filename_inj. lia.
  - replace (part_number + Z.of_nat (S i)) with (part_number + 1 + Z.of_nat i) by lia.
    by apply IH.
Qed.

Lemma write_parts_source filename batches part_number fs :
  write_parts filename part_number batches fs !! filename = fs !! filename.
Proof.
  apply write_parts_other. intros j _ Heq.
  by apply (part_filename_fresh (part_number + j) filename).
Qed.

Lemma part_infos_spec filename batches part_number i :
  part_infos filename part_number batches !! i
  = (fun lines =>
       {| name := part_filename (part_number + Z.of_nat i) filename;
          size := _format_file_size (Py.len (Py.join lines));
          url := "/download/" +:+ part_filename (part_number + Z.of_nat i) filename |})
    <$> batches !! i.
Proof.
  revert part_number i. induction batches as [|b batches IH]; intros part_number i.
  - done.
  - destruct i as [|i]; cbn [part_infos].
    + cbn. by rewrite Z.add_0_r.
    + cbn [lookup list_lookup]. rewrite IH.
      by replace (part_number + 1 + Z.of_nat i) with (part_number + Z.of_nat (S i)) by lia.
Qed.

Lemma length_part_infos filename batches part_number :
  length (part_infos filename part_number batches) = length batches.
Proof.
  revert part_number. induction batches as [|b batches IH]; intros part_number; [done|].
  cbn. by rewrite IH.
Qed.

(** The splitting branch as a whole: it returns, its entries are those
    of the batches numbered from 1, every batch is in its file, and the
    source file is as it was. *)
Lemma split_branch fs filename max_size_mb content :
  fs !! filename = Some content ->
  max_size_mb * 1024 * 1024 < Py.len content ->
  exists batches fs',
    split_file_for_download fs filename max_size_mb
    = Some (part_infos filename 1 batches, fs') /\
    batching (max_size_mb * 1024 * 1024) content batches /\
    Forall2 (fun part lines => fs' !! name part = Some (Py.join lines))
            (part_infos filename 1 batches) batches /\
    fs' !! filename = Some content.
Proof.
  intros Hfile Hsize. unfold split_file_for_download, getsize. rewrite Hfile.
  cbn [from_option].
  destruct (Z.leb_spec (Py.len content) (max_size_mb * 1024 * 1024)); [lia|].
  destruct (split_loop_runs (max_size_mb * 1024 * 1024) filename
              (S (String.length content)) content fs 1 [])
    as (batches & Hbatches & Hloop); [lia|].
  exists batches, (write_parts filename 1 batches fs).
  split; [by rewrite Hloop|]. split; [done|]. split.
  - apply Forall2_same_length_lookup. split; [apply length_part_infos|].
    intros i part lines Hpart Hlines.
    rewrite part_infos_spec, Hlines in Hpart. injection Hpart as <-.
    cbn [name]. by apply write_parts_lookup.
  - by rewrite write_parts_source.
Qed.

Lemma batch_lines_value : Z.of_nat batch_lines = 500000.
Proof. unfold batch_lines. lia. Qed.

Example split_sample :
  fst <$> split_file_for_download sample_dir "138_ALL.txt" 0
  = Some [ {| name := "part_1_138_ALL.txt"; size := "12.00 B";
              url := "/download/part_1_138_ALL.txt" |};
           {| name := "part_2_138_ALL.txt"; size := "12.00 B";
              url := "/download/part_2_138_ALL.txt" |};
           {| name := "part_3_138_ALL.txt"; size := "12.00 B";
              url := "/download/part_3_138_ALL.txt" |} ].
Proof. vm_compute. reflexivity. Qed.

(** C1. When the artifact is larger than the budget, the split returns
    one entry per batch of lines, named [part_1_..], [part_2_..], ... in
    order; the file of each entry holds its batch; the batches put end to
    end are the lines of the source, and their texts put end to end are
    its text; each batch is made of whole lines, so reading a partition
    back gives exactly its batch. *)
Theorem split_roundtrip fs filename max_size_mb content :
  fs !! filename = Some content ->
  max_size_mb * 1024 * 1024 < Py.len content ->
  exists parts fs' batches,
    split_file_for_download fs filename max_size_mb = Some (parts, fs') /\
    Forall2 (fun part lines => fs' !! name part = Some (Py.join lines))
            parts batches /\
    (forall i part,
        parts !! i = Some part ->
        name part = part_filename (1 + Z.of_nat i) filename) /\
    concat batches = splitlines content /\
    Py.join (Py.join <$> batches) = content /\
    Forall (fun lines => splitlines (Py.join lines) = lines) batches.
Proof.
  intros Hfile Hsize.
  destruct (split_branch fs filename max_size_mb content Hfile Hsize)
    as (batches & fs' & Hsplit & Hbatches & Hfiles & _).
  destruct (batching_spec _ _ _ Hbatches) as (Hconcat & Hjoin & Hok & _).
  exists (part_infos filename 1 batches), fs', batches.
  split; [done|]. split; [done|]. split.
  - intros i part Hpart. rewrite part_infos_spec in Hpart.
    destruct (batches !! i); [|done]. by injection Hpart as <-.
  - split; [done|]. split; [done|].
    eapply Forall_impl; [exact Hok|]. by intros lines (_ & _ & ? & _).
Qed.

Lemma split_roundtrip_witness :
  exists parts fs' batches,
    split_file_for_download sample_dir "138_ALL.txt" 0 = Some (parts, fs') /\
    concat batches = splitlines sample_artifact /\
    Py.join (Py.join <$> batches) = sample_artifact.
Proof.
  destruct (split_roundtrip sample_dir "138_ALL.txt" 0 sample_artifact)
    as (parts & fs' & batches & Hsplit & _ & _ & Hlines & Htext & _);
    [reflexivity | reflexivity |].
  exists parts, fs', batches. by repeat split.
Defined.

(** There is one way only to cut a list of lines into batches that
    close at the first line at which the byte bound or the line bound is
    reached. *)
Lemma cut_unique max_size (batches1 batches2 : list (list string)) :
  concat batches1 = concat batches2 ->
  (forall i lines,
      batches1 !! i = Some lines ->
      lines <> [] /\
      Z.of_nat (length lines) <= 500000 /\
      (forall k, (0 < k < length lines)%nat ->
                 Py.len (Py.join (take k lines)) < max_size) /\
      (max_size <= Py.len (Py.join lines) \/
       Z.of_nat (length lines) = 500000 \/
       S i = length batches1)) ->
  (forall i lines,
      batches2 !! i = Some lines ->
      lines <> [] /\
      Z.of_nat (length lines) <= 500000 /\
      (forall k, (0 < k < length lines)%nat ->
                 Py.len (Py.join (take k lines)) < max_size) /\
      (max_size <= Py.len (Py.join lines) \/
       Z.of_nat (length lines) = 500000 \/
       S i = length batches2)) ->
  batches1 = batches2.
Proof.
  assert (forall (l1 l2 : list string) (r1 r2 : list (list string)),
             l1 ++ concat r1 = l2 ++ concat r2 ->
             l1 <> [] ->
             (forall k, (0 < k < length l2)%nat ->
                        Py.len (Py.join (take k l2)) < max_size) ->
             Z.of_nat (length l2) <= 500000 ->
             (max_size <= Py.len (Py.join l1) \/
              Z.of_nat (length l1) = 500000 \/
              1%nat = length (l1 :: r1)) ->
             ~ (length l1 < length l2)%nat) as Hshort.
  { intros l1 l2 r1 r2 Hconcat Hne Hpre Hcap Hstop Hlt.
    assert (take (length l1) l2 = l1) as Htake.
    { apply (f_equal (take (length l1))) in Hconcat.
      rewrite take_app_length in Hconcat.
      rewrite take_app_le in Hconcat by lia. done. }
    assert (0 < length l1)%nat by (destruct l1; [done|cbn [length]; lia]).
    specialize (Hpre (length l1)). rewrite Htake in Hpre.
    specialize (Hpre ltac:(lia)).
    destruct Hstop as [?|[?|Hlast]]; [lia|lia|].
    cbn [length] in Hlast. destruct r1; [|done].
    cbn [concat] in Hconcat. rewrite app_nil_r in Hconcat.
    apply (f_equal length) in Hconcat. rewrite length_app in Hconcat. lia. }
  revert batches2.
  induction batches1 as [|l1 r1 IH]; intros batches2 Hconcat H1 H2.
  - destruct batches2 as [|l2 r2]; [done|].
    destruct (H2 0%nat l2 eq_refl) as (Hne & _).
    cbn [concat] in Hconcat. by destruct l2.
  - destruct (H1 0%nat l1 eq_refl) as (Hne1 & Hcap1 & Hpre1 & Hstop1).
    destruct batches2 as [|l2 r2].
    { cbn [concat] in Hconcat. by destruct l1. }
    destruct (H2 0%nat l2 eq_refl) as (Hne2 & Hcap2 & Hpre2 & Hstop2).
    cbn [concat] in Hconcat.
    assert (length l1 = length l2) as Hlen.
    { pose proof (Hshort l1 l2 r1 r2 Hconcat Hne1 Hpre2 Hcap2 Hstop1).
      pose proof (Hshort l2 l1 r2 r1 (eq_sym Hconcat) Hne2 Hpre1 Hcap1 Hstop2).
      lia. }
    apply app_inj_1 in Hconcat as [-> Hrest]; [|done].
    f_equal. apply IH; [done| |].
    + intros i lines Hi.
      destruct (H1 (S i) lines Hi) as (? & ? & ? & Hstop).
      split; [done|]. split; [done|]. split; [done|].
      destruct Hstop as [?|[?|Hstop]];
        [by left | by right; left | right; right; cbn [length] in Hstop; lia].
    + intros i lines Hi.
      destruct (H2 (S i) lines Hi) as (? & ? & ? & Hstop).
      split; [done|]. split; [done|]. split; [done|].
      destruct Hstop as [?|[?|Hstop]];
        [by left | by right; left | right; right; cbn [length] in Hstop; lia].
Qed.

(** C2. The splitting branch cuts the lines of the source, in their
    order, into the partitions it writes: the lines of the file of each
    partition are a batch, and the batches put end to end are the lines
    of the source.  Every partition has at most 500,000 lines.  Its size
    in bytes, which is the size of its file, passes the budget by no more
    than the length of its last line when the budget is not negative:
    before that line was added the budget had not been reached, and after
    no earlier line had it been reached.  The partition was closed
    because the budget was reached, or 500,000 lines were read, or the
    source ended.  These bounds leave one way only to cut the source. *)
Theorem split_part_bounds fs filename max_size_mb content :
  fs !! filename = Some content ->
  max_size_mb * 1024 * 1024 < Py.len content ->
  exists parts fs' batches,
    split_file_for_download fs filename max_size_mb = Some (parts, fs') /\
    Forall2 (fun part lines =>
               fs' !! name part = Some (Py.join lines) /\
               splitlines (Py.join lines) = lines /\
               getsize fs' (name part) = Py.len (Py.join lines))
            parts batches /\
    concat batches = splitlines content /\
    (forall i lines,
      batches !! i = Some lines ->
      Z.of_nat (length lines) <= 500000 /\
      (exists init last,
          lines = init ++ [last] /\
          Py.len (Py.join lines)
          <= Z.max 0 (max_size_mb * 1024 * 1024) + Py.len last /\
          (0 <= max_size_mb ->
           Py.len (Py.join lines) <= max_size_mb * 1024 * 1024 + Py.len last) /\
          (init <> [] -> Py.len (Py.join init) < max_size_mb * 1024 * 1024)) /\
      (forall k, (0 < k < length lines)%nat ->
                 Py.len (Py.join (take k lines)) < max_size_mb * 1024 * 1024) /\
      (max_size_mb * 1024 * 1024 <= Py.len (Py.join lines) \/
       Z.of_nat (length lines) = 500000 \/
       S i = length batches)) /\
    (forall batches' : list (list string),
        concat batches' = splitlines content ->
        (forall i lines,
            batches' !! i = Some lines ->
            lines <> [] /\
            Z.of_nat (length lines) <= 500000 /\
            (forall k, (0 < k < length lines)%nat ->
                       Py.len (Py.join (take k lines)) < max_size_mb * 1024 * 1024) /\
            (max_size_mb * 1024 * 1024 <= Py.len (Py.join lines) \/
             Z.of_nat (length lines) = 500000 \/
             S i = length batches')) ->
        batches' = batches).
Proof.
  intros Hfile Hsize.
  destruct (split_branch fs filename max_size_mb content Hfile Hsize)
    as (batches & fs' & Hsplit & Hbatches & Hfiles & _).
  destruct (batching_spec _ _ _ Hbatches) as (Hconcat & _ & Hok & Hstop).
  exists (part_infos filename 1 batches), fs', batches.
  split; [done|]. split.
  { apply Forall2_same_length_lookup. split; [apply length_part_infos|].
    intros i part lines Hpart Hlines.
    destruct (Forall2_lookup_l _ _ _ _ _ Hfiles Hpart) as (lines' & Hlines' & Htext).
    rewrite Hlines in Hlines'. injection Hlines' as <-.
    rewrite Forall_forall in Hok.
    destruct (Hok lines) as (_ & _ & Hwhole & _).
    { by eapply list_elem_of_lookup_2. }
    split; [done|]. split; [done|]. unfold getsize. by rewrite Htext. }
  split; [done|]. split.
  - intros i lines Hi.
    rewrite Forall_forall in Hok.
    destruct (Hok lines) as (Hne & _ & _ & Hlen & Hbound).
    { by eapply list_elem_of_lookup_2. }
    split; [rewrite <- batch_lines_value; lia|]. split; [|split; [done|]].
    + destruct (exists_last Hne) as (init & last & ->).
      exists init, last. split; [done|].
      rewrite join_app, len_app, join_cons. cbn [Py.join foldr].
      rewrite app_empty_r.
      assert (init <> [] -> Py.len (Py.join init) < max_size_mb * 1024 * 1024) as Hinit.
      { intros Hinit. specialize (Hbound (length init)).
        rewrite take_app_length in Hbound. apply Hbound.
        rewrite length_app. cbn. destruct init; [done|]. cbn. lia. }
      split; [|split; [|done]]; destruct init as [|l init].
      * change (Py.len (Py.join [])) with 0. lia.
      * specialize (Hinit ltac:(done)). lia.
      * change (Py.len (Py.join [])) with 0. lia.
      * specialize (Hinit ltac:(done)). lia.
    + destruct (Hstop i lines Hi) as [?|[Hcap|?]]; auto.
      right; left. rewrite Hcap. apply batch_lines_value.
  - intros batches' Hconcat' Hbounds'.
    symmetry. eapply (cut_unique (max_size_mb * 1024 * 1024)).
    + by rewrite Hconcat, Hconcat'.
    + intros i lines Hi. rewrite Forall_forall in Hok.
      destruct (Hok lines) as (Hne & _ & _ & Hlen & Hbound).
      { by eapply list_elem_of_lookup_2. }
      split; [done|]. split; [rewrite <- batch_lines_value; lia|].
      split; [done|].
      destruct (Hstop i lines Hi) as [?|[Hcap|?]]; auto.
      right; left. rewrite Hcap. apply batch_lines_value.
    + exact Hbounds'.
Qed.

Lemma split_part_bounds_witness :
  exists parts fs' (batches : list (list string)),
    split_file_for_download sample_dir "138_ALL.txt" 0 = Some (parts, fs') /\
    concat batches = splitlines sample_artifact /\
    batches = [["13800130000" +:+ Py.nl]; ["13800130001" +:+ Py.nl];
               ["13800130002" +:+ Py.nl]] /\
    forall i lines,
      batches !! i = Some lines -> Z.of_nat (length lines) <= 500000.
Proof.
  destruct (split_part_bounds sample_dir "138_ALL.txt" 0 sample_artifact)
    as (parts & fs' & batches & Hsplit & _ & Hconcat & Hbounds & Hunique);
    [reflexivity | reflexivity |].
  exists parts, fs', batches. split; [exact Hsplit|]. split; [exact Hconcat|].
  split.
  - symmetry. apply Hunique; [reflexivity|].
    intros [|[|[|i]]] lines [= <-]; cbn [length];
      (split; [discriminate|]; split; [lia|];
       split; [intros k ?; lia|]; left; by vm_compute).
  - intros i lines Hi. by destruct (Hbounds i lines Hi) as (? & _).
Defined.



(** ** Files that are missing or empty *)

Lemma split_no_file fs filename max_size_mb :
  fs !! filename = None ->
  split_file_for_download fs filename max_size_mb = Some ([], fs).
Proof. intros Hfile. unfold split_file_for_download. by rewrite Hfile. Qed.

(** C7, as the code has it.  For a name with no file in the download
    directory the split returns the empty list and leaves the directory
    as it is; no error is raised. *)
Theorem split_missing_file fs filename max_size_mb :
  fs !! filename = None ->
  split_file_for_download fs filename max_size_mb = Some ([], fs).
Proof.
  intros Hfile. unfold split_file_for_download.
  destruct (fs !! filename) as [content|]; [discriminate Hfile | reflexivity].
Qed.

Lemma split_missing_file_witness :
  sample_dir !! "139_ALL.txt" = None /\
  split_file_for_download sample_dir "139_ALL.txt" 20 = Some ([], sample_dir).
Proof.
  split; [reflexivity|]. apply (split_missing_file sample_dir "139_ALL.txt" 20).
  reflexivity.
Defined.

(** C7, as stated, fails: the split of a file that is not there returns
    normally, with an empty list. *)
Lemma split_missing_file_returns :
  split_file_for_download ∅ "138_ALL.txt" 20 = Some ([], ∅).
Proof. reflexivity. Qed.

(** C8, as the code has it.  For an artifact of zero bytes nothing is
    raised and nothing is written; with a budget that is not negative the
    split returns the one entry of the artifact itself, and only with a
    negative budget does it return no entry. *)
Theorem split_empty_file fs filename max_size_mb :
  fs !! filename = Some "" ->
  (0 <= max_size_mb ->
   split_file_for_download fs filename max_size_mb
   = Some ([{| name := filename; size := "0.00 B";
               url := "/download/" +:+ filename |}], fs)) /\
  (max_size_mb < 0 ->
   split_file_for_download fs filename max_size_mb = Some ([], fs)).
Proof.
  intros Hfile. unfold split_file_for_download, getsize. rewrite Hfile.
  cbn [from_option]. change (Py.len "") with 0. split; intros Hbudget.
  - by destruct (Z.leb_spec 0 (max_size_mb * 1024 * 1024)); [|lia].
  - destruct (Z.leb_spec 0 (max_size_mb * 1024 * 1024)); [lia|].
    change (String.length "") with 0%nat. rewrite split_loop_unfold.
    destruct (read_batch_spec (max_size_mb * 1024 * 1024) batch_lines "" [] 0)
      as (new & f' & Hread & Hjoin & _ & _ & _ & _ & _ & _ & Hne).
    rewrite app_nil_l in Hread. rewrite Hread. destruct new as [|line new]; [done|].
    apply Forall_cons in Hne as [Hline _]. rewrite join_cons in Hjoin.
    by apply app_eq_empty in Hjoin as [[? _]%app_eq_empty _].
Qed.

Lemma split_empty_file_witness :
  split_file_for_download {[ "138_ALL.txt" := "" ]} "138_ALL.txt" 20
  = Some ([{| name := "138_ALL.txt"; size := "0.00 B";
              url := "/download/" +:+ "138_ALL.txt" |}],
          {[ "138_ALL.txt" := "" ]}).
Proof.
  apply (split_empty_file {[ "138_ALL.txt" := "" ]} "138_ALL.txt" 20);
    [reflexivity | discriminate].
Defined.

(** C8, as stated, fails: with the budget of 20 MB an artifact of zero
    bytes comes back as one entry, not as none. *)
Lemma split_empty_file_one_entry :
  split_file_for_download {[ "138_ALL.txt" := "" ]} "138_ALL.txt" 20
  = Some ([{| name := "138_ALL.txt"; size := "0.00 B";
              url := "/download/138_ALL.txt" |}], {[ "138_ALL.txt" := "" ]}) /\
  length [{| name := "138_ALL.txt"; size := "0.00 B";
             url := "/download/138_ALL.txt" |}] <> 0%nat.
Proof. split; [reflexivity | discriminate]. Qed.

(** The split always returns. *)
Lemma split_total fs filename max_size_mb :
  is_Some (split_file_for_download fs filename max_size_mb).
Proof.
  destruct (fs !! filename) as [content|] eqn:Hfile.
  - destruct (Z.le_gt_cases (Py.len content) (max_size_mb * 1024 * 1024)) as [Hle|Hgt].
    + unfold split_file_for_download, getsize. rewrite Hfile. cbn [from_option].
      by destruct (Z.leb_spec (Py.len content) (max_size_mb * 1024 * 1024)); [|lia].
    + destruct (split_branch fs filename max_size_mb content Hfile)
        as (batches & fs' & -> & _); [lia | done].
  - by rewrite split_no_file.
Qed.

(** ** Writing the artifact *)

Lemma foldl_write numbers f :
  foldl (fun f number => f +:+ (number +:+ Py.nl)) f numbers
  = f +:+ artifact_text numbers.
Proof.
  unfold artifact_text. revert f.
  induction numbers as [|number numbers IH]; intros f.
  - cbn. by rewrite app_empty_r.
  - cbn [foldl]. by rewrite IH, fmap_cons, join_cons, <- !app_assoc_str.
Qed.

(** A string without a line feed, followed by one, is a line. *)
Lemma splitlines_line number rest :
  no_newline number = true ->
  splitlines ((number +:+ Py.nl) +:+ rest) = (number +:+ Py.nl) :: splitlines rest.
Proof.
  induction number as [|c number IH]; intros Hnl.
  - rewrite !app_empty_l. unfold Py.nl.
    by rewrite app_cons, app_empty_l, splitlines_cons, Ascii.eqb_refl.
  - cbn [no_newline] in Hnl. apply andb_true_iff in Hnl as [Hc Hnl].
    rewrite !app_cons, splitlines_cons.
    destruct (Ascii.eqb c Py.newline); [done|]. by rewrite (IH Hnl).
Qed.

Lemma splitlines_artifact numbers :
  Forall (fun number => no_newline number = true) numbers ->
  splitlines (artifact_text numbers) = (fun number => number +:+ Py.nl) <$> numbers.
Proof.
  unfold artifact_text. induction 1 as [|number numbers Hnl _ IH]; [done|].
  rewrite !fmap_cons, join_cons, splitlines_line by done.
  f_equal. exact IH.
Qed.

Lemma generate_to_file_unfold fs numbers filename :
  generate_to_file fs numbers filename
  = ((filename, Py.len (artifact_text numbers),
      _format_file_size (Py.len (artifact_text numbers))),
     <[filename := artifact_text numbers]> fs).
Proof.
  unfold generate_to_file. by rewrite foldl_write, app_empty_l, getsize_insert.
Qed.

(** C6, as the code has it.  [generate_to_file] puts in the file the
    identifiers in the order given, each followed by one line feed (so,
    for identifiers that hold no line feed, one identifier per line), and
    returns the name of the file, its size in bytes as found afterwards,
    and that size formatted; no count of lines is returned. *)
Theorem generate_to_file_correct fs numbers filename :
  generate_to_file fs numbers filename
  = ((filename, Py.len (artifact_text numbers),
      _format_file_size (Py.len (artifact_text numbers))),
     <[filename := artifact_text numbers]> fs) /\
  getsize (<[filename := artifact_text numbers]> fs) filename
  = Py.len (artifact_text numbers) /\
  (Forall (fun number => no_newline number = true) numbers ->
   splitlines (artifact_text numbers)
   = (fun number => number +:+ Py.nl) <$> numbers).
Proof.
  split; [apply generate_to_file_unfold|].
  split; [apply getsize_insert | apply splitlines_artifact].
Qed.

Lemma generate_to_file_correct_witness :
  splitlines (artifact_text ["13800130000"; "13800130001"])
  = ["13800130000" +:+ Py.nl; "13800130001" +:+ Py.nl].
Proof.
  apply (generate_to_file_correct ∅ ["13800130000"; "13800130001"] "138_ALL.txt").
  by repeat constructor.
Defined.

(** C6, as stated, fails: for two identifiers the call returns the name,
    24 and "24.00 B"; the file has two lines, and 2 is not among the
    values returned. *)
Lemma generate_to_file_no_line_count :
  exists ret fs',
    generate_to_file ∅ ["13800130000"; "13800130001"] "138_ALL.txt" = (ret, fs') /\
    ret = ("138_ALL.txt", 24, "24.00 B") /\
    (length ∘ splitlines) <$> fs' !! "138_ALL.txt" = Some 2%nat /\
    ~ reports ret 2.
Proof.
  eexists _, _. split; [reflexivity|]. split; [reflexivity|].
  split; [reflexivity|]. intros [?|[?|?]]; discriminate.
Qed.

(** ** The generation request *)

Lemma split_keeps_source fs filename max_size_mb parts fs' :
  split_file_for_download fs filename max_size_mb = Some (parts, fs') ->
  fs' !! filename = fs !! filename.
Proof.
  intros Hsplit. destruct (fs !! filename) as [content|] eqn:Hfile.
  - destruct (Z.le_gt_cases (Py.len content) (max_size_mb * 1024 * 1024))
      as [Hle|Hgt].
    + unfold split_file_for_download, getsize in Hsplit.
      rewrite Hfile in Hsplit. cbn [from_option] in Hsplit.
      destruct (Z.leb_spec (Py.len content) (max_size_mb * 1024 * 1024)); [|lia].
      by injection Hsplit as _ <-.
    + destruct (split_branch fs filename max_size_mb content Hfile)
        as (batches & fs'' & Hsplit' & _ & _ & Hsource); [lia|].
      rewrite Hsplit in Hsplit'. by injection Hsplit' as _ ->.
  - rewrite split_no_file in Hsplit by done. by injection Hsplit as _ <-.
Qed.

Section RequestProperties.

Variable strip : string -> string.
Variable isdigit : string -> bool.

(** What [api_generate] does once the input is valid. *)
Lemma api_generate_valid number_generator db timestamp fs data :
  fst (validate_input strip isdigit data) = true ->
  api_generate strip isdigit number_generator db timestamp fs data
  = let numbers := requested_numbers strip db data in
    let filename := requested_filename strip timestamp data in
    match numbers with
    | [] => Some ({| code := 404; message := "未找到符合条件的号码";
                     data := None |}, fs)
    | _ =>
    if max_count number_generator <? Z.of_nat (length numbers) then
      Some ({| code := 400;
               message := "查询结果超过限制（最多"
                            +:+ Py.str (max_count number_generator)
                            +:+ "条），请缩小查询范围";
               data := None |}, fs)
    else
      let '((actual_filename, file_size, file_size_str), fs) :=
        generate_to_file fs numbers filename in
      let file_size_bytes := getsize fs actual_filename in
      if file_size_limit number_generator * 1024 * 1024 <? file_size_bytes then
        match split_file_for_download fs actual_filename 20 with
        | None => None
        | Some (files, fs) =>
            Some ({| code := 200; message := "生成成功";
                     data := Some (length numbers, files) |}, fs)
        end
      else
        Some ({| code := 200; message := "生成成功";
                 data := Some (length numbers,
                               [{| name := actual_filename;
                                   size := file_size_str;
                                   url := "/download/" +:+ actual_filename |}]) |},
              fs)
    end.
Proof.
  intros Hvalid. unfold api_generate.
  destruct (validate_input strip isdigit data) as [valid error_msg].
  cbn [fst] in Hvalid. subst valid. reflexivity.
Qed.

(** The identifiers of a request are its candidates, each once. *)
Lemma requested_numbers_candidates db data :
  NoDup (requested_numbers strip db data) /\
  (forall number,
      number ∈ requested_numbers strip db data <->
      number ∈ requested_candidates strip db data) /\
  (length (requested_numbers strip db data)
   <= length (requested_candidates strip db data))%nat.
Proof.
  assert (NoDup (requested_numbers strip db data)) as Hnodup.
  { apply StronglySorted_str_lt_NoDup, generate_numbers_sorted. }
  assert (forall number,
             number ∈ requested_numbers strip db data <->
             number ∈ requested_candidates strip db data) as Hsame.
  { intros number. unfold requested_numbers, requested_candidates, generate_numbers.
    cbv zeta. destruct (query_phone_locations _ _ _ _ _) as [|row rows]; [done|].
    by rewrite merge_sort_Permutation, elem_of_elements, elem_of_list_to_set. }
  split; [done|]. split; [done|].
  apply submseteq_length, NoDup_submseteq; [done|].
  intros number. apply Hsame.
Qed.

(** C3. [api_generate] holds the identifiers of a valid request against
    [max_count] after the duplicates are removed, not before: the list it
    counts has each candidate once.  With a limit that is not negative,
    the answer is the rejection, code 400 with the message that the limit
    is passed and the download directory as it was, exactly when the
    identifiers so counted are more than [max_count].  When they are not
    more, and there is one at least, the request is served with code 200,
    however many candidates there were before the duplicates were
    removed. *)
Theorem api_generate_over_capacity number_generator db timestamp fs data :
  fst (validate_input strip isdigit data) = true ->
  0 <= max_count number_generator ->
  (NoDup (requested_numbers strip db data) /\
   (forall number,
       number ∈ requested_numbers strip db data <->
       number ∈ requested_candidates strip db data) /\
   (length (requested_numbers strip db data)
    <= length (requested_candidates strip db data))%nat) /\
  (max_count number_generator
     < Z.of_nat (length (requested_numbers strip db data)) ->
   api_generate strip isdigit number_generator db timestamp fs data
   = Some ({| code := 400;
              message := "查询结果超过限制（最多"
                           +:+ Py.str (max_count number_generator)
                           +:+ "条），请缩小查询范围";
              data := None |}, fs)) /\
  (Z.of_nat (length (requested_numbers strip db data))
     <= max_count number_generator ->
   requested_numbers strip db data <> [] ->
   exists files fs',
     api_generate strip isdigit number_generator db timestamp fs data
     = Some ({| code := 200; message := "生成成功";
                data := Some (length (requested_numbers strip db data), files) |},
             fs')) /\
  (forall answer fs',
      api_generate strip isdigit number_generator db timestamp fs data
      = Some (answer, fs') ->
      code answer = 400 ->
      max_count number_generator
        < Z.of_nat (length (requested_numbers strip db data))).
Proof.
  intros Hvalid Hmax.
  split; [apply requested_numbers_candidates|].
  rewrite api_generate_valid by done. cbv zeta.
  destruct (requested_numbers strip db data) as [|number numbers].
  { split; [cbn [length]; lia|]. split; [done|].
    intros answer fs' [= <- _]. cbn [code]. lia. }
  destruct (Z.ltb_spec (max_count number_generator)
                       (Z.of_nat (length (number :: numbers)))) as [Hover|Hin].
  { split; [done|]. split; [lia|]. done. }
  split; [lia|].
  rewrite generate_to_file_unfold, getsize_insert.
  destruct (_ <? _).
  - match goal with
    | |- context [split_file_for_download ?fs1 ?filename 20] =>
        destruct (split_total fs1 filename 20) as [[files fs1'] ->]
    end.
    split; [by exists files, fs1'|].
    intros answer fs' [= <- _]. cbn [code]. lia.
  - split; [by eexists _, _|].
    intros answer fs' [= <- _]. cbn [code]. lia.
Qed.

(** Within the limit the artifact is written and the answer has code
    200 and the count of the identifiers. *)
Lemma api_generate_within_capacity number_generator db timestamp fs data :
  fst (validate_input strip isdigit data) = true ->
  requested_numbers strip db data <> [] ->
  Z.of_nat (length (requested_numbers strip db data))
    <= max_count number_generator ->
  exists files fs',
    api_generate strip isdigit number_generator db timestamp fs data
    = Some ({| code := 200; message := "生成成功";
               data := Some (length (requested_numbers strip db data), files) |},
            fs') /\
    fs' !! requested_filename strip timestamp data
    = Some (artifact_text (requested_numbers strip db data)).
Proof.
  intros Hvalid Hsome Hcount. rewrite api_generate_valid by done. cbv zeta.
  destruct (requested_numbers strip db data) as [|number numbers] eqn:Hnumbers;
    [done|].
  destruct (Z.ltb_spec (max_count number_generator)
                       (Z.of_nat (length (number :: numbers)))); [lia|].
  rewrite generate_to_file_unfold, getsize_insert.
  destruct (_ <? _).
  - destruct (split_total
                (<[requested_filename strip timestamp data
                   := artifact_text (number :: numbers)]> fs)
                (requested_filename strip timestamp data) 20)
      as [[files fs'] Hsplit].
    rewrite Hsplit. exists files, fs'. split; [done|].
    rewrite (split_keeps_source _ _ _ _ _ Hsplit). apply lookup_insert_eq.
  - eexists _, _. split; [done|]. apply lookup_insert_eq.
Qed.

End RequestProperties.

Lemma api_generate_over_capacity_witness :
  Z.of_nat (length (requested_candidates (fun s => s) shared_segment_db sample_request))
  = 20 /\
  Z.of_nat (length (requested_numbers (fun s => s) shared_segment_db sample_request))
  = 10 /\
  api_generate (fun s => s) all_digits
               {| batch_size := 500; max_count := 9; file_size_limit := 20 |}
               shared_segment_db "20240101_120000" ∅ sample_request
  = Some ({| code := 400;
             message := "查询结果超过限制（最多"
                          +:+ Py.str 9
                          +:+ "条），请缩小查询范围";
             data := None |}, ∅) /\
  exists files fs',
    api_generate (fun s => s) all_digits
                 {| batch_size := 500; max_count := 10; file_size_limit := 20 |}
                 shared_segment_db "20240101_120000" ∅ sample_request
    = Some ({| code := 200; message := "生成成功";
               data := Some (length (requested_numbers (fun s => s)
                                       shared_segment_db sample_request), files) |},
            fs').
Proof.
  split; [by vm_compute|]. split; [by vm_compute|]. split.
  - destruct (api_generate_over_capacity (fun s => s) all_digits
                {| batch_size := 500; max_count := 9; file_size_limit := 20 |}
                shared_segment_db "20240101_120000" ∅ sample_request)
      as (_ & Hover & _); [by vm_compute | by vm_compute |].
    apply Hover. by vm_compute.
  - destruct (api_generate_over_capacity (fun s => s) all_digits
                {| batch_size := 500; max_count := 10; file_size_limit := 20 |}
                shared_segment_db "20240101_120000" ∅ sample_request)
      as (_ & _ & Hserve & _); [by vm_compute | by vm_compute |].
    apply Hserve; by vm_compute.
Defined.

(** Twenty candidates from two rows of one segment are ten identifiers:
    with a limit of ten the request is served. *)
Example api_generate_counts_distinct :
  code <$> (fst <$> api_generate (fun s => s) all_digits
                      {| batch_size := 500; max_count := 10; file_size_limit := 20 |}
                      shared_segment_db "20240101_120000" ∅ sample_request)
  = Some 200.
Proof. vm_compute. reflexivity. Qed.

(** * Further properties *)

(** ** The three modes of the expansion *)

Lemma expansion_tails prefix suffix suffix_4 suffix_3 :
  _generate_numbers_for_location prefix suffix suffix_4 suffix_3
  = (fun d => prefix +:+ suffix +:+ d) <$> tails suffix_4 suffix_3.
Proof.
  unfold tails. destruct (Py.truthy suffix_4) eqn:H4.
  - unfold _generate_numbers_for_location. by rewrite H4.
  - destruct (Py.truthy suffix_3) eqn:H3.
    + unfold _generate_numbers_for_location. rewrite H4, H3.
      rewrite (foldl_append_one
                 (fun d => prefix +:+ suffix +:+ String d "" +:+ default "" suffix_3)).
      by rewrite <- list_fmap_compose.
    + by apply expansion_full.
Qed.

Lemma str_lt_head c1 c2 s1 s2 :
  Ascii.compare c1 c2 = Lt -> str_lt (String c1 s1) (String c2 s2).
Proof. intros Hc. apply str_lt_compare. cbn [String.compare]. by rewrite Hc. Qed.

Lemma tails_sorted suffix_4 suffix_3 : StronglySorted str_lt (tails suffix_4 suffix_3).
Proof.
  unfold tails. destruct (Py.truthy suffix_4); [repeat constructor|].
  destruct (Py.truthy suffix_3).
  - cbn [list_ascii_of_string fmap list_fmap].
    repeat (constructor; [|repeat (constructor; [by apply str_lt_head|]); constructor]).
    constructor.
  - rewrite local4_digit_blocks. apply digit_blocks_sorted.
Qed.

Lemma tails_length suffix_4 suffix_3 :
  Z.of_nat (length (tails suffix_4 suffix_3)) = expansion_size suffix_4 suffix_3.
Proof.
  unfold tails, expansion_size. destruct (Py.truthy suffix_4); [done|].
  destruct (Py.truthy suffix_3); [done|].
  rewrite length_fmap, length_seqZ. lia.
Qed.

Lemma tails_uniform suffix_4 suffix_3 d1 d2 :
  d1 ∈ tails suffix_4 suffix_3 -> d2 ∈ tails suffix_4 suffix_3 ->
  String.length d1 = String.length d2.
Proof.
  unfold tails. destruct (Py.truthy suffix_4).
  { by intros ->%list_elem_of_singleton ->%list_elem_of_singleton. }
  destruct (Py.truthy suffix_3).
  - intros (c1 & -> & _)%list_elem_of_fmap (c2 & -> & _)%list_elem_of_fmap.
    by rewrite !length_app_str.
  - rewrite local4_digit_blocks.
    intros [H1 _]%elem_of_digit_blocks [H2 _]%elem_of_digit_blocks. congruence.
Qed.

Lemma expansion_sorted prefix suffix suffix_4 suffix_3 :
  StronglySorted str_lt
    (_generate_numbers_for_location prefix suffix suffix_4 suffix_3).
Proof.
  rewrite expansion_tails.
  apply (StronglySorted_fmap _ str_lt); [|apply tails_sorted].
  intros a b Hab. by do 2 apply str_lt_app.
Qed.

(** X1. With an exact suffix of four the expansion of a segment is the
    one identifier made of the prefix, the suffix and that exact suffix,
    whatever is given as the exact suffix of three. *)
Theorem expansion_exact4 prefix suffix exact4 suffix_3 :
  exact4 <> "" ->
  _generate_numbers_for_location prefix suffix (Some exact4) suffix_3
  = [prefix +:+ suffix +:+ exact4].
Proof.
  intros Hne. rewrite expansion_tails. unfold tails.
  destruct exact4 as [|c rest]; [done|]. reflexivity.
Qed.

Lemma expansion_exact4_witness :
  _generate_numbers_for_location "138" "0013" (Some "1234") (Some "567")
  = ["138" +:+ "0013" +:+ "1234"].
Proof. apply (expansion_exact4 "138" "0013" "1234" (Some "567")). discriminate. Defined.

(** X2. With an exact suffix of three and none of four the expansion of
    a segment has ten identifiers, one for each leading digit 0 to 9 of
    the last block, in that order: they differ only in that digit, are
    all different and strictly ascending. *)
Theorem expansion_exact3 prefix suffix suffix_4 exact3 :
  Py.truthy suffix_4 = false -> exact3 <> "" ->
  exists out,
    _generate_numbers_for_location prefix suffix suffix_4 (Some exact3) = out /\
    Z.of_nat (length out) = 10 /\
    (forall i, 0 <= i < 10 ->
               out !! Z.to_nat i
               = Some (prefix +:+ suffix +:+ Py.str i +:+ exact3)) /\
    NoDup out /\
    StronglySorted str_lt out.
Proof.
  intros H4 Hne. eexists. split; [reflexivity|].
  pose proof (expansion_sorted prefix suffix suffix_4 (Some exact3)) as Hsorted.
  rewrite expansion_tails in Hsorted |- *. unfold tails in Hsorted |- *.
  rewrite H4 in Hsorted |- *.
  destruct exact3 as [|c rest]; [done|]. cbn [Py.truthy default] in Hsorted |- *.
  split; [done|]. split.
  - intros i Hi.
    assert (i = 0 \/ i = 1 \/ i = 2 \/ i = 3 \/ i = 4 \/
            i = 5 \/ i = 6 \/ i = 7 \/ i = 8 \/ i = 9) as Hcases by lia.
    repeat (destruct Hcases as [->|Hcases]; [reflexivity|]). by subst i.
  - split; [by apply StronglySorted_str_lt_NoDup | done].
Qed.

Lemma expansion_exact3_witness :
  exists out,
    _generate_numbers_for_location "138" "0013" None (Some "567") = out /\
    Z.of_nat (length out) = 10.
Proof.
  destruct (expansion_exact3 "138" "0013" None "567")
    as (out & Hout & Hlen & _); [reflexivity | discriminate |].
  exists out. by split.
Defined.

(** ** Counting over the distinct suffixes *)

Lemma app_inj_equal_tails s1 s2 d1 d2 :
  s1 +:+ d1 = s2 +:+ d2 -> String.length d1 = String.length d2 -> s1 = s2.
Proof.
  revert s2. induction s1 as [|c s1 IH]; intros [|c2 s2] Heq Hlen; [done| | |].
  - apply (f_equal String.length) in Heq.
    rewrite app_empty_l, app_cons in Heq. cbn [String.length] in Heq.
    rewrite length_app_str in Heq. lia.
  - apply (f_equal String.length) in Heq.
    rewrite app_empty_l, app_cons in Heq. cbn [String.length] in Heq.
    rewrite length_app_str in Heq. lia.
  - rewrite !app_cons in Heq. injection Heq as -> Heq. f_equal. by apply IH.
Qed.

(** Two segments with different suffixes share no identifier. *)
Lemma expansion_disjoint prefix s1 s2 suffix_4 suffix_3 number :
  number ∈ _generate_numbers_for_location prefix s1 suffix_4 suffix_3 ->
  number ∈ _generate_numbers_for_location prefix s2 suffix_4 suffix_3 ->
  s1 = s2.
Proof.
  rewrite !expansion_tails.
  intros (d1 & -> & Hd1)%list_elem_of_fmap (d2 & Heq & Hd2)%list_elem_of_fmap.
  apply (inj (String.app prefix)) in Heq.
  eapply app_inj_equal_tails; [exact Heq|]. by eapply tails_uniform.
Qed.

Lemma expansion_length prefix suffix suffix_4 suffix_3 :
  Z.of_nat (length (_generate_numbers_for_location prefix suffix suffix_4 suffix_3))
  = expansion_size suffix_4 suffix_3.
Proof. by rewrite expansion_tails, length_fmap, tails_length. Qed.

Lemma expansion_set_size prefix suffix_4 suffix_3 (locations : list location) :
  Z.of_nat (base.size (list_to_set
              (locations ≫= fun location =>
                 _generate_numbers_for_location prefix (loc_suffix location)
                                                suffix_4 suffix_3) : gset string))
  = expansion_size suffix_4 suffix_3
    * Z.of_nat (base.size (list_to_set (loc_suffix <$> locations) : gset string)).
Proof.
  induction locations as [|l locations IH].
  - cbn. rewrite !size_empty. lia.
  - rewrite fmap_cons, list_to_set_cons. cbn [mbind list_bind].
    rewrite list_to_set_app_L.
    destruct (decide (loc_suffix l ∈ (list_to_set (loc_suffix <$> locations)
                                        : gset string))) as [Hin|Hnotin].
    + rewrite (subseteq_union_1_L {[loc_suffix l]}) by set_solver.
      rewrite <- IH. f_equal. f_equal. apply subseteq_union_1_L.
      intros number Hnumber%elem_of_list_to_set.
      apply elem_of_list_to_set in Hin.
      apply list_elem_of_fmap in Hin as (l' & Hsuffix & Hl').
      apply elem_of_list_to_set, list_elem_of_bind. exists l'.
      split; [by rewrite <- Hsuffix | done].
    + rewrite !size_union.
      * rewrite size_singleton, size_list_to_set, !Nat2Z.inj_add, IH, expansion_length.
        { lia. }
        apply StronglySorted_str_lt_NoDup, expansion_sorted.
      * apply disjoint_singleton_l, Hnotin.
      * intros number Hnumber%elem_of_list_to_set Hrest%elem_of_list_to_set.
        apply list_elem_of_bind in Hrest as (l' & Hnumber' & Hl').
        apply Hnotin, elem_of_list_to_set, list_elem_of_fmap.
        exists l'. split; [|done].
        by eapply expansion_disjoint.
Qed.

(** X3. The number of identifiers that [generate_numbers] returns is the
    number of distinct suffixes among the matching rows times what one
    segment gives: 1 with an exact suffix of four, 10 with an exact
    suffix of three, 10,000 otherwise. *)
Theorem generate_numbers_count db prefix suffix suffix_3 province city operators :
  Z.of_nat (length (generate_numbers db prefix suffix suffix_3
                                     province city operators))
  = expansion_size suffix suffix_3
    * Z.of_nat (base.size (matching_suffixes db prefix province city operators)).
Proof.
  rewrite generate_numbers_unfold. unfold matching_suffixes.
  destruct (query_phone_locations db prefix province city operators)
    as [|l locations] eqn:Hq.
  - cbn. rewrite size_empty. lia.
  - rewrite merge_sort_Permutation. apply expansion_set_size.
Qed.

(** X4. What [generate_numbers] returns depends on the table only
    through the set of suffixes of the matching rows: the order of the
    rows, rows that repeat a suffix, and the operators and places do not
    change it. *)
Theorem generate_numbers_by_suffixes
    db1 db2 prefix suffix suffix_3 province1 city1 operators1
    province2 city2 operators2 :
  matching_suffixes db1 prefix province1 city1 operators1
  = matching_suffixes db2 prefix province2 city2 operators2 ->
  generate_numbers db1 prefix suffix suffix_3 province1 city1 operators1
  = generate_numbers db2 prefix suffix suffix_3 province2 city2 operators2.
Proof.
  unfold matching_suffixes. rewrite !generate_numbers_unfold. intros Hsame.
  assert (forall locations1 locations2 : list location,
            (list_to_set (loc_suffix <$> locations1) : gset string)
            = list_to_set (loc_suffix <$> locations2) ->
            (list_to_set (locations1 ≫= fun location =>
               _generate_numbers_for_location prefix (loc_suffix location)
                                              suffix suffix_3) : gset string)
            ⊆ list_to_set (locations2 ≫= fun location =>
               _generate_numbers_for_location prefix (loc_suffix location)
                                              suffix suffix_3)) as Hsub.
  { intros locations1 locations2 Hset number Hnumber%elem_of_list_to_set.
    apply list_elem_of_bind in Hnumber as (l1 & Hnumber & Hl1).
    assert (loc_suffix l1 ∈ (list_to_set (loc_suffix <$> locations2) : gset string))
      as Hin.
    { rewrite <- Hset. apply elem_of_list_to_set, list_elem_of_fmap. by exists l1. }
    apply elem_of_list_to_set, list_elem_of_fmap in Hin as (l2 & Hsuffix & Hl2).
    apply elem_of_list_to_set, list_elem_of_bind. exists l2.
    split; [by rewrite <- Hsuffix | done]. }
  destruct (query_phone_locations db1 prefix province1 city1 operators1)
    as [|l1 locations1],
     (query_phone_locations db2 prefix province2 city2 operators2)
    as [|l2 locations2].
  - done.
  - exfalso. rewrite fmap_cons, list_to_set_cons in Hsame. set_solver.
  - exfalso. rewrite fmap_cons, list_to_set_cons in Hsame. set_solver.
  - f_equal. f_equal. apply (anti_symm (⊆)); by apply Hsub.
Qed.

Lemma generate_numbers_by_suffixes_witness :
  generate_numbers shared_segment_db "138" None (Some "567") "北京" "北京" None
  = generate_numbers shared_segment_db "138" None (Some "567") "北京" "北京" (Some [2]).
Proof.
  apply (generate_numbers_by_suffixes shared_segment_db shared_segment_db).
  reflexivity.
Defined.

(** ** The name and the size of the artifact *)

Lemma has_char_app c s t : has_char c (s +:+ t) = has_char c s || has_char c t.
Proof.
  induction s as [|c' s IH]; [done|].
  rewrite app_cons. cbn [has_char]. by rewrite IH, orb_assoc.
Qed.

Lemma has_char_replaced a b s : a <> b -> has_char a (Py.replace a b s) = false.
Proof.
  intros Hab. induction s as [|c s IH]; [done|]. cbn [Py.replace has_char].
  rewrite IH, orb_false_r. destruct (Ascii.eqb_spec c a) as [->|Hc].
  - by apply Ascii.eqb_neq.
  - by apply Ascii.eqb_neq.
Qed.

Lemma has_char_replace_other c a b s :
  c <> b -> has_char c s = false -> has_char c (Py.replace a b s) = false.
Proof.
  intros Hcb. induction s as [|c' s IH]; [done|]. cbn [Py.replace has_char].
  intros [Hc' Hs]%orb_false_iff. rewrite (IH Hs), orb_false_r.
  destruct (Ascii.eqb c' a); [|done]. apply Ascii.eqb_neq. congruence.
Qed.

(** X5. [generate_filename] cleans the province and the city only: a
    slash (a backslash) is in the name exactly when it is in the prefix,
    the suffix, the time stamp or the extension, which are copied in as
    they are.  So the name holds no separator when these four hold none,
    whatever the province and the city are. *)
Theorem generate_filename_no_separator
    prefix province city suffix extension timestamp (c : ascii) :
  c = "/"%char \/ c = "\"%char ->
  has_char c (generate_filename prefix province city suffix extension timestamp)
  = has_char c prefix || has_char c suffix || has_char c timestamp
    || has_char c extension /\
  (has_char c prefix = false ->
   has_char c suffix = false ->
   has_char c timestamp = false ->
   has_char c extension = false ->
   has_char c (generate_filename prefix province city suffix extension timestamp)
   = false).
Proof.
  intros Hc.
  assert (forall s, has_char c (Py.replace "\"%char "_"%char
                                  (Py.replace "/"%char "_"%char s)) = false)
    as Hclean.
  { intros s. destruct Hc as [-> | ->].
    - apply has_char_replace_other; [discriminate|].
      by apply has_char_replaced.
    - by apply has_char_replaced. }
  assert (has_char c "_" = false /\ has_char c "." = false) as [Hbar Hdot].
  { by destruct Hc as [-> | ->]. }
  assert (has_char c (generate_filename prefix province city suffix extension timestamp)
          = has_char c prefix || has_char c suffix || has_char c timestamp
            || has_char c extension) as Hname.
  { unfold generate_filename.
    rewrite !has_char_app, !Hclean, Hbar, Hdot.
    by destruct (has_char c prefix), (has_char c suffix),
                (has_char c timestamp), (has_char c extension). }
  split; [exact Hname|].
  intros Hprefix Hsuffix Htime Hext.
  by rewrite Hname, Hprefix, Hsuffix, Htime, Hext.
Qed.

Lemma generate_filename_no_separator_witness :
  has_char "/"%char
    (generate_filename "138" "../etc" "a/b" "ALL" "txt" "20240101_120000") = false
  /\ has_char "/"%char
       (generate_filename "138" "../etc" "a/b" "ALL" "t/xt" "20240101_120000") = true.
Proof.
  split.
  - apply (generate_filename_no_separator
             "138" "../etc" "a/b" "ALL" "txt" "20240101_120000" "/"%char);
      [by left | reflexivity..].
  - by rewrite (proj1 (generate_filename_no_separator
                         "138" "../etc" "a/b" "ALL" "t/xt" "20240101_120000"
                         "/"%char (or_introl eq_refl))).
Defined.

Lemma len_artifact_text numbers :
  Py.len (artifact_text numbers)
  = foldr (fun number total => Py.len number + 1 + total) 0 numbers.
Proof.
  unfold artifact_text. induction numbers as [|number numbers IH]; [done|].
  rewrite fmap_cons, join_cons, !len_app, IH. cbn [foldr].
  change (Py.len Py.nl) with 1. lia.
Qed.

(** X6. [generate_to_file] replaces whatever the file held and changes
    no other file; the size it returns is one byte more than the length
    of each identifier, summed: 12 bytes for each identifier of eleven
    characters. *)
Theorem generate_to_file_size fs numbers filename :
  Forall (fun number => String.length number = 11%nat) numbers ->
  exists size_str fs',
    generate_to_file fs numbers filename
    = ((filename, 12 * Z.of_nat (length numbers), size_str), fs') /\
    getsize fs' filename = 12 * Z.of_nat (length numbers) /\
    forall other, other <> filename -> fs' !! other = fs !! other.
Proof.
  intros Hnumbers. rewrite generate_to_file_unfold.
  assert (Py.len (artifact_text numbers) = 12 * Z.of_nat (length numbers)) as Hsize.
  { rewrite len_artifact_text.
    induction Hnumbers as [|number numbers Hnumber _ IH]; [done|].
    cbn [foldr length]. rewrite IH. unfold Py.len. rewrite Hnumber. lia. }
  rewrite Hsize. eexists _, _. split; [reflexivity|].
  split; [by rewrite getsize_insert|].
  intros other Hother. by rewrite lookup_insert_ne.
Qed.

Lemma generate_to_file_size_witness :
  exists size_str fs',
    generate_to_file sample_dir ["13800130000"; "13800130001"] "138_ALL.txt"
    = (("138_ALL.txt", 24, size_str), fs').
Proof.
  destruct (generate_to_file_size sample_dir ["13800130000"; "13800130001"]
                                  "138_ALL.txt")
    as (size_str & fs' & Hret & _); [by repeat constructor|].
  by exists size_str, fs'.
Defined.

(** ** Validation *)

Lemma valid_operator (op : Z) : op ∈ [1; 2; 3; 4; 5] <-> 1 <= op <= 5.
Proof. rewrite !elem_of_cons, elem_of_nil. lia. Qed.

Section ValidationProperties.

Variable strip : string -> string.
Variable isdigit : string -> bool.

(** X7. [validate_input] accepts a request exactly when the stripped
    prefix is three digits, the stripped province and city are not empty,
    at most one of the two exact suffixes is given, a given one is four
    (three) digits, and every operator is one of 1 to 5; the message of
    an accepted request is empty. *)
Theorem validate_input_accepts data :
  (fst (validate_input strip isdigit data) = true <->
   (Py.char_count (strip (r_prefix data)) = 3 /\
    isdigit (strip (r_prefix data)) = true) /\
   strip (r_province data) <> "" /\
   strip (r_city data) <> "" /\
   (stripped strip (r_suffix_4 data) = "" \/ stripped strip (r_suffix_3 data) = "") /\
   (stripped strip (r_suffix_4 data) <> "" ->
    Py.char_count (stripped strip (r_suffix_4 data)) = 4 /\
    isdigit (stripped strip (r_suffix_4 data)) = true) /\
   (stripped strip (r_suffix_3 data) <> "" ->
    Py.char_count (stripped strip (r_suffix_3 data)) = 3 /\
    isdigit (stripped strip (r_suffix_3 data)) = true) /\
   Forall (fun op => 1 <= op <= 5) (r_operators data)) /\
  (fst (validate_input strip isdigit data) = true ->
   snd (validate_input strip isdigit data) = "").
Proof.
  unfold validate_input. fold (stripped strip (r_suffix_4 data)).
  fold (stripped strip (r_suffix_3 data)).
  set (prefix := strip (r_prefix data)).
  set (province := strip (r_province data)).
  set (city := strip (r_city data)).
  set (s4 := stripped strip (r_suffix_4 data)).
  set (s3 := stripped strip (r_suffix_3 data)).
  assert (filter (fun op => op ∉ [1; 2; 3; 4; 5]) (r_operators data) = []
          <-> Forall (fun op => 1 <= op <= 5) (r_operators data)) as Hops.
  { induction (r_operators data) as [|op ops IH]; [by split; [constructor|]|].
    rewrite filter_cons, Forall_cons, <- IH, <- valid_operator.
    case_decide as Hop; [by split; [|intros [? _]] | by split; [|intros [_ ?]]]. }
  destruct prefix as [|p0 prefix'] eqn:Hprefix.
  { cbn [fst snd]. split; [|done]. split; [done|]. by intros [[[=] _] _]. }
  rewrite <- Hprefix. clear Hprefix.
  destruct (Z.eqb_spec (Py.char_count prefix) 3) as [Hlen|Hlen]; cbn [negb orb];
    [|cbn [fst snd]; split; [split; [done | by intros [[? _] _]] | done]].
  destruct (isdigit prefix) eqn:Hdig; cbn [negb];
    [|cbn [fst snd]; split; [split; [done | by intros [[_ ?] _]] | done]].
  destruct province as [|? ?] eqn:Hprovince;
    [cbn [fst snd]; split; [split; [done | by intros (_ & ? & _)] | done]|].
  rewrite <- Hprovince.
  assert (province <> "") as Hpne by (by rewrite Hprovince). clear Hprovince.
  destruct city as [|? ?] eqn:Hcity;
    [cbn [fst snd]; split; [split; [done | by intros (_ & _ & ? & _)] | done]|].
  rewrite <- Hcity.
  assert (city <> "") as Hcne by (by rewrite Hcity). clear Hcity.
  assert (forall s4' s3' : string,
    (s4' = "" \/ s3' = "") ->
    (let verdict :=
       if match s4' with
          | "" => false
          | _ => negb (Py.char_count s4' =? 4) || negb (isdigit s4')
          end
       then (false, "后4位必须为4位数字") else
       if match s3' with
          | "" => false
          | _ => negb (Py.char_count s3' =? 3) || negb (isdigit s3')
          end
       then (false, "后3位必须为3位数字") else
       match filter (fun op => op ∉ [1; 2; 3; 4; 5]) (r_operators data) with
       | op :: _ => (false, "无效的运营商类型：" +:+ Py.str op)
       | [] => (true, "")
       end in
     (fst verdict = true <->
      (s4' <> "" -> Py.char_count s4' = 4 /\ isdigit s4' = true) /\
      (s3' <> "" -> Py.char_count s3' = 3 /\ isdigit s3' = true) /\
      Forall (fun op => 1 <= op <= 5) (r_operators data)) /\
     (fst verdict = true -> snd verdict = ""))) as Hrest.
  { intros s4' s3' _. cbv zeta.
    assert ((match s4' with
             | "" => false
             | _ => negb (Py.char_count s4' =? 4) || negb (isdigit s4')
             end = false)
            <-> (s4' <> "" -> Py.char_count s4' = 4 /\ isdigit s4' = true)) as H4.
    { destruct s4' as [|c4 r4] eqn:E4; [by split|]. rewrite <- E4.
      rewrite orb_false_iff, !negb_false_iff, Z.eqb_eq.
      split; [by intros ? _ | intros H; apply H; by rewrite E4]. }
    assert ((match s3' with
             | "" => false
             | _ => negb (Py.char_count s3' =? 3) || negb (isdigit s3')
             end = false)
            <-> (s3' <> "" -> Py.char_count s3' = 3 /\ isdigit s3' = true)) as H3.
    { destruct s3' as [|c3 r3] eqn:E3; [by split|]. rewrite <- E3.
      rewrite orb_false_iff, !negb_false_iff, Z.eqb_eq.
      split; [by intros ? _ | intros H; apply H; by rewrite E3]. }
    rewrite <- H4, <- H3, <- Hops.
    destruct (match s4' with "" => false | _ => _ end);
      [cbn [fst snd]; split; [split; [done | by intros [? _]] | done]|].
    destruct (match s3' with "" => false | _ => _ end);
      [cbn [fst snd]; split; [split; [done | by intros (_ & ? & _)] | done]|].
    destruct (filter _ _); cbn [fst snd];
      [by split | split; [split; [done | by intros (_ & _ & ?)] | done]]. }
  destruct s4 as [|c4 r4], s3 as [|c3 r3].
  - destruct (Hrest "" "" (or_introl eq_refl)) as [Hiff Hmsg].
    split; [|exact Hmsg]. split.
    + intros H. apply Hiff in H as (Hs4 & Hs3 & ?).
      repeat split; auto; try done; try (by apply Hs4); by apply Hs3.
    + intros (_ & _ & _ & _ & H). apply Hiff. exact H.
  - destruct (Hrest "" (String c3 r3) (or_introl eq_refl)) as [Hiff Hmsg].
    split; [|exact Hmsg]. split.
    + intros H. apply Hiff in H as (Hs4 & Hs3 & ?).
      repeat split; auto; try done; try (by apply Hs4); by apply Hs3.
    + intros (_ & _ & _ & _ & H). apply Hiff. exact H.
  - destruct (Hrest (String c4 r4) "" (or_intror eq_refl)) as [Hiff Hmsg].
    split; [|exact Hmsg]. split.
    + intros H. apply Hiff in H as (Hs4 & Hs3 & ?).
      repeat split; auto; try done; try (by apply Hs4); by apply Hs3.
    + intros (_ & _ & _ & _ & H). apply Hiff. exact H.
  - cbn [fst snd]. split; [|done]. split; [done|].
    by intros (_ & _ & _ & [?|?] & _).
Qed.

End ValidationProperties.

(** ** More on the split *)

Lemma split_branch_dir fs filename max_size_mb content :
  fs !! filename = Some content ->
  max_size_mb * 1024 * 1024 < Py.len content ->
  exists batches,
    split_file_for_download fs filename max_size_mb
    = Some (part_infos filename 1 batches, write_parts filename 1 batches fs) /\
    batching (max_size_mb * 1024 * 1024) content batches.
Proof.
  intros Hfile Hsize. unfold split_file_for_download, getsize. rewrite Hfile.
  cbn [from_option].
  destruct (Z.leb_spec (Py.len content) (max_size_mb * 1024 * 1024)); [lia|].
  destruct (split_loop_runs (max_size_mb * 1024 * 1024) filename
              (S (String.length content)) content fs 1 [])
    as (batches & Hbatches & Hloop); [lia|].
  exists batches. by rewrite Hloop.
Qed.

Lemma split_pass_through fs filename max_size_mb content :
  fs !! filename = Some content ->
  Py.len content <= max_size_mb * 1024 * 1024 ->
  split_file_for_download fs filename max_size_mb
  = Some ([{| name := filename;
              size := _format_file_size (Py.len content);
              url := "/download/" +:+ filename |}], fs).
Proof.
  intros Hfile Hsize. unfold split_file_for_download, getsize. rewrite Hfile.
  cbn [from_option].
  by destruct (Z.leb_spec (Py.len content) (max_size_mb * 1024 * 1024)); [|lia].
Qed.

(** X8. Whatever [split_file_for_download] returns, it has left the
    source file as it was, and every other file too whose name is not
    one of [part_1_..], [part_2_..], ... of the source. *)
Theorem split_touches_only_parts fs filename max_size_mb parts fs' :
  split_file_for_download fs filename max_size_mb = Some (parts, fs') ->
  fs' !! filename = fs !! filename /\
  forall other,
    (forall k, 1 <= k -> other <> part_filename k filename) ->
    fs' !! other = fs !! other.
Proof.
  intros Hsplit. destruct (fs !! filename) as [content|] eqn:Hfile.
  - destruct (Z.le_gt_cases (Py.len content) (max_size_mb * 1024 * 1024))
      as [Hle|Hgt].
    + rewrite (split_pass_through _ _ _ _ Hfile Hle) in Hsplit.
      injection Hsplit as _ <-. by rewrite Hfile.
    + destruct (split_branch_dir fs filename max_size_mb content Hfile)
        as (batches & Hsplit' & _); [lia|].
      rewrite Hsplit in Hsplit'. injection Hsplit' as _ ->.
      split; [by rewrite write_parts_source|].
      intros other Hother. apply write_parts_other.
      intros j Hj. apply Hother. lia.
  - rewrite split_no_file in Hsplit by done. injection Hsplit as _ <-.
    by rewrite Hfile.
Qed.

Lemma split_touches_only_parts_witness :
  exists parts fs',
    split_file_for_download sample_dir "138_ALL.txt" 0 = Some (parts, fs') /\
    fs' !! "138_ALL.txt" = Some sample_artifact.
Proof.
  destruct (split_total sample_dir "138_ALL.txt" 0) as [[parts fs'] Hsplit].
  exists parts, fs'. split; [done|].
  by destruct (split_touches_only_parts _ _ _ _ _ Hsplit) as [-> _].
Defined.

Lemma length_concat_nonempty {A} (batches : list (list A)) :
  Forall (fun lines => lines <> []) batches ->
  (length batches <= length (concat batches))%nat.
Proof.
  induction 1 as [|lines batches Hne _ IH]; [done|].
  cbn [concat length]. rewrite length_app. destruct lines; [done|]. cbn. lia.
Qed.

Lemma len_join_join batches :
  Py.len (Py.join (Py.join <$> batches))
  = foldr (fun lines total => Py.len (Py.join lines) + total) 0 batches.
Proof.
  induction batches as [|lines batches IH]; [done|].
  by rewrite fmap_cons, join_cons, len_app, IH.
Qed.

(** X9. In the splitting branch the sizes of the partition files add up
    to the size of the source; every entry carries the formatted size of
    its file and the address [/download/] followed by its name; and
    there are no more partitions than the source has lines. *)
Theorem split_sizes fs filename max_size_mb content :
  fs !! filename = Some content ->
  max_size_mb * 1024 * 1024 < Py.len content ->
  exists parts fs',
    split_file_for_download fs filename max_size_mb = Some (parts, fs') /\
    foldr (fun part total => getsize fs' (name part) + total) 0 parts
    = Py.len content /\
    Forall (fun part =>
              size part = _format_file_size (getsize fs' (name part)) /\
              url part = "/download/" +:+ name part) parts /\
    (length parts <= length (splitlines content))%nat.
Proof.
  intros Hfile Hsize.
  destruct (split_branch fs filename max_size_mb content Hfile Hsize)
    as (batches & fs' & Hsplit & Hbatches & Hfiles & _).
  destruct (batching_spec _ _ _ Hbatches) as (Hconcat & Hjoin & Hok & _).
  exists (part_infos filename 1 batches), fs'. split; [done|].
  split; [|split].
  - rewrite <- Hjoin, len_join_join. clear -Hfiles.
    induction Hfiles as [|part lines parts batches Hpart _ IH]; [done|].
    cbn [foldr]. rewrite IH. unfold getsize. by rewrite Hpart.
  - apply Forall_forall. intros part [i Hi]%list_elem_of_lookup.
    destruct (Forall2_lookup_l _ _ _ _ _ Hfiles Hi) as (lines & Hi' & Hpart).
    rewrite part_infos_spec, Hi' in Hi. injection Hi as <-.
    cbn [name size url] in Hpart |- *. unfold getsize. by rewrite Hpart.
  - rewrite length_part_infos, <- Hconcat. apply length_concat_nonempty.
    eapply Forall_impl; [exact Hok|]. by intros lines (? & _).
Qed.

Lemma split_sizes_witness :
  exists parts fs',
    split_file_for_download sample_dir "138_ALL.txt" 0 = Some (parts, fs') /\
    foldr (fun part total => getsize fs' (name part) + total) 0 parts = 36.
Proof.
  destruct (split_sizes sample_dir "138_ALL.txt" 0 sample_artifact)
    as (parts & fs' & Hsplit & Hsum & _); [reflexivity | reflexivity |].
  by exists parts, fs'.
Defined.

(** ** The request from end to end *)

(** The files named by the result of a split hold the source, whichever
    branch is taken. *)
Lemma split_covers_source fs filename max_size_mb content :
  fs !! filename = Some content ->
  exists parts fs' texts,
    split_file_for_download fs filename max_size_mb = Some (parts, fs') /\
    Forall2 (fun part text =>
               fs' !! name part = Some text /\
               url part = "/download/" +:+ name part) parts texts /\
    Py.join texts = content.
Proof.
  intros Hfile.
  destruct (Z.le_gt_cases (Py.len content) (max_size_mb * 1024 * 1024))
    as [Hle|Hgt].
  - eexists _, fs, [content]. split; [by apply split_pass_through|].
    split; [by repeat constructor|]. cbn. apply app_empty_r.
  - destruct (split_branch fs filename max_size_mb content Hfile)
      as (batches & fs' & Hsplit & Hbatches & Hfiles & _); [lia|].
    destruct (batching_spec _ _ _ Hbatches) as (_ & Hjoin & _).
    exists (part_infos filename 1 batches), fs', (Py.join <$> batches).
    split; [done|]. split; [|done].
    apply Forall2_fmap_r, Forall2_same_length_lookup.
    split; [apply length_part_infos|].
    intros i part lines Hpart Hlines.
    destruct (Forall2_lookup_l _ _ _ _ _ Hfiles Hpart) as (lines' & Hlines' & Htext).
    rewrite Hlines in Hlines'. injection Hlines' as <-. split; [done|].
    rewrite part_infos_spec, Hlines in Hpart. by injection Hpart as <-.
Qed.

Section RequestOutcomes.

Variable strip : string -> string.
Variable isdigit : string -> bool.

(** X10. When [api_generate] serves a valid request within the limit,
    every file it lists can be downloaded: [download_file] finds it under
    the listed name, the listed address is [/download/] and that name,
    and the contents of the listed files, in the order listed, put end to
    end are the identifiers of the request, one per line. *)
Theorem api_generate_lists_whole_artifact
    number_generator db timestamp fs request :
  fst (validate_input strip isdigit request) = true ->
  requested_numbers strip db request <> [] ->
  Z.of_nat (length (requested_numbers strip db request))
    <= max_count number_generator ->
  exists files fs' texts,
    api_generate strip isdigit number_generator db timestamp fs request
    = Some ({| code := 200; message := "生成成功";
               data := Some (length (requested_numbers strip db request), files) |},
            fs') /\
    Forall2 (fun part text =>
               download_file fs' (name part) = Attachment (name part) text /\
               url part = "/download/" +:+ name part) files texts /\
    Py.join texts = artifact_text (requested_numbers strip db request).
Proof.
  intros Hvalid Hsome Hcount. rewrite api_generate_valid by done. cbv zeta.
  destruct (requested_numbers strip db request) as [|number numbers] eqn:Hnumbers;
    [done|].
  destruct (Z.ltb_spec (max_count number_generator)
                       (Z.of_nat (length (number :: numbers)))); [lia|].
  rewrite generate_to_file_unfold, getsize_insert.
  set (filename := requested_filename strip timestamp request).
  set (text := artifact_text (number :: numbers)).
  destruct (_ <? _).
  - destruct (split_covers_source (<[filename := text]> fs) filename 20 text)
      as (parts & fs' & texts & -> & Hparts & Hjoin); [apply lookup_insert_eq|].
    exists parts, fs', texts. split; [done|]. split; [|done].
    eapply Forall2_impl; [exact Hparts|]. intros part t [Hfile Hurl].
    split; [|done]. unfold download_file. by rewrite Hfile.
  - eexists _, _, [text]. split; [reflexivity|]. split.
    + repeat constructor. unfold download_file. cbn [name].
      by rewrite lookup_insert_eq.
    + cbn. apply app_empty_r.
Qed.

(** X11. [api_generate] checks before it writes.  An invalid request
    is answered with code 400 and the message of [validate_input], and a
    valid request that matches no identifier with code 404; in both
    cases the download directory is as it was.  An answer with code 200,
    and any change of the download directory, comes only for a valid
    request that has an identifier at least and no more than [max_count]
    of them. *)
Theorem api_generate_checks_first number_generator db timestamp fs request :
  (fst (validate_input strip isdigit request) = false ->
   api_generate strip isdigit number_generator db timestamp fs request
   = Some ({| code := 400;
              message := snd (validate_input strip isdigit request);
              data := None |}, fs)) /\
  (fst (validate_input strip isdigit request) = true ->
   requested_numbers strip db request = [] ->
   api_generate strip isdigit number_generator db timestamp fs request
   = Some ({| code := 404; message := "未找到符合条件的号码"; data := None |}, fs)) /\
  (forall answer fs',
      api_generate strip isdigit number_generator db timestamp fs request
      = Some (answer, fs') ->
      code answer = 200 \/ fs' <> fs ->
      fst (validate_input strip isdigit request) = true /\
      requested_numbers strip db request <> [] /\
      Z.of_nat (length (requested_numbers strip db request))
        <= max_count number_generator).
Proof.
  destruct (fst (validate_input strip isdigit request)) eqn:Hvalid.
  - split; [done|].
    rewrite api_generate_valid by done. cbv zeta.
    destruct (requested_numbers strip db request) as [|number numbers].
    { split; [done|]. intros answer fs' [= <- <-]. cbn [code]. by intros [|]. }
    split; [done|].
    destruct (Z.ltb_spec (max_count number_generator)
                         (Z.of_nat (length (number :: numbers)))).
    { intros answer fs' [= <- <-]. cbn [code]. by intros [|]. }
    by intros.
  - split; [|split; [done|]].
    + intros _. unfold api_generate.
      destruct (validate_input strip isdigit request) as [valid error_msg].
      cbn [fst snd] in Hvalid |- *. by subst valid.
    + unfold api_generate.
      destruct (validate_input strip isdigit request) as [valid error_msg].
      cbn [fst] in Hvalid. subst valid. cbn [negb].
      intros answer fs' [= <- <-]. cbn [code]. by intros [|].
Qed.

End RequestOutcomes.

Lemma api_generate_checks_first_witness :
  api_generate (fun s => s) all_digits
               {| batch_size := 500; max_count := 10; file_size_limit := 20 |}
               shared_segment_db "20240101_120000" sample_dir
               {| r_prefix := ""; r_suffix_4 := None; r_suffix_3 := None;
                  r_province := "北京"; r_city := "北京"; r_operators := [] |}
  = Some ({| code := 400; message := "请输入手机号前3位号段"; data := None |},
          sample_dir) /\
  api_generate (fun s => s) all_digits
               {| batch_size := 500; max_count := 10; file_size_limit := 20 |}
               [] "20240101_120000" sample_dir sample_request
  = Some ({| code := 404; message := "未找到符合条件的号码"; data := None |},
          sample_dir) /\
  Z.of_nat (length (requested_numbers (fun s => s) shared_segment_db sample_request))
  <= 10.
Proof.
  split; [|split].
  - destruct (api_generate_checks_first (fun s => s) all_digits
                {| batch_size := 500; max_count := 10; file_size_limit := 20 |}
                shared_segment_db "20240101_120000" sample_dir
                {| r_prefix := ""; r_suffix_4 := None; r_suffix_3 := None;
                   r_province := "北京"; r_city := "北京"; r_operators := [] |})
      as (Hinvalid & _).
    apply Hinvalid. reflexivity.
  - destruct (api_generate_checks_first (fun s => s) all_digits
                {| batch_size := 500; max_count := 10; file_size_limit := 20 |}
                [] "20240101_120000" sample_dir sample_request)
      as (_ & Hnone & _).
    apply Hnone; reflexivity.
  - destruct (api_generate_checks_first (fun s => s) all_digits
                {| batch_size := 500; max_count := 10; file_size_limit := 20 |}
                shared_segment_db "20240101_120000" sample_dir sample_request)
      as (_ & _ & Hserved).
    assert (exists answer fs',
               api_generate (fun s => s) all_digits
                 {| batch_size := 500; max_count := 10; file_size_limit := 20 |}
                 shared_segment_db "20240101_120000" sample_dir sample_request
               = Some (answer, fs') /\ code answer = 200)
      as (answer & fs' & Hanswer & Hcode).
    { eexists _, _. split; [vm_compute; reflexivity | reflexivity]. }
    destruct (Hserved answer fs' Hanswer (or_introl Hcode)) as (_ & _ & Hcount).
    exact Hcount.
Defined.

Lemma api_generate_lists_whole_artifact_witness :
  exists files fs' texts,
    api_generate (fun s => s) all_digits
                 {| batch_size := 500; max_count := 10; file_size_limit := 20 |}
                 shared_segment_db "20240101_120000" ∅ sample_request
    = Some ({| code := 200; message := "生成成功";
               data := Some (length (requested_numbers (fun s => s)
                                       shared_segment_db sample_request), files) |},
            fs') /\
    Py.join texts
    = artifact_text (requested_numbers (fun s => s) shared_segment_db sample_request).
Proof.
  destruct (api_generate_lists_whole_artifact (fun s => s) all_digits
              {| batch_size := 500; max_count := 10; file_size_limit := 20 |}
              shared_segment_db "20240101_120000" ∅ sample_request)
    as (files & fs' & texts & Hanswer & _ & Htexts);
    [by vm_compute | by vm_compute | by vm_compute |].
  exists files, fs', texts. split; [exact Hanswer | exact Htexts].
Defined.

Lemma api_generate_within_capacity_witness :
  exists files fs',
    api_generate (fun s => s) all_digits
                 {| batch_size := 500; max_count := 10; file_size_limit := 20 |}
                 shared_segment_db "20240101_120000" ∅ sample_request
    = Some ({| code := 200; message := "生成成功";
               data := Some (length (requested_numbers (fun s => s)
                                       shared_segment_db sample_request), files) |},
            fs') /\
    fs' !! requested_filename (fun s => s) "20240101_120000" sample_request
    = Some (artifact_text (requested_numbers (fun s => s)
                             shared_segment_db sample_request)).
Proof.
  apply (api_generate_within_capacity (fun s => s) all_digits
           {| batch_size := 500; max_count := 10; file_size_limit := 20 |}
           shared_segment_db "20240101_120000" ∅ sample_request);
    by vm_compute.
Defined.

(** ** Retention *)

Section RetentionProperties.

Variable time : Type.
Variable elapsed : time -> time -> time.
Variable exceeds : time -> Z -> bool.

(** The loop over any list of names: it removes the named entries that
    are to be swept, counts them, and keeps the others as they are. *)
Lemma cleanup_loop current_time expire_hours (names : list string) :
  forall (store : gmap string (dir_entry time)) deleted_count,
  exists store' deleted_count',
    foldl (cleanup_round time elapsed exceeds current_time (expire_hours * 3600))
          (store, deleted_count) names
    = (store', deleted_count') /\
    (forall filename,
        store' !! filename
        = match store !! filename with
          | Some entry =>
              if bool_decide (filename ∈ names)
                 && swept time elapsed exceeds expire_hours current_time entry
              then None else Some entry
          | None => None
          end) /\
    deleted_count' + Z.of_nat (base.size store')
    = deleted_count + Z.of_nat (base.size store).
Proof.
  induction names as [|name names IH]; intros store deleted_count.
  { exists store, deleted_count. split; [done|]. split; [|done].
    intros filename. by destruct (store !! filename). }
  cbn [foldl].
  set (state := cleanup_round time elapsed exceeds current_time
                              (expire_hours * 3600) (store, deleted_count) name).
  assert (exists store1 count1,
             state = (store1, count1) /\
             (forall filename,
                 store1 !! filename
                 = match store !! filename with
                   | Some entry =>
                       if bool_decide (filename = name)
                          && swept time elapsed exceeds expire_hours current_time entry
                       then None else Some entry
                   | None => None
                   end) /\
             count1 + Z.of_nat (base.size store1)
             = deleted_count + Z.of_nat (base.size store)) as Hround.
  { subst state. unfold cleanup_round, swept.
    destruct (store !! name) as [entry|] eqn:Hname.
    - destruct (is_file entry) eqn:Hfile,
        (exceeds (elapsed current_time (mtime entry)) (expire_hours * 3600)) eqn:Hold,
        (removable entry) eqn:Hrm;
        try (exists store, deleted_count; split; [done|]; split; [|done];
             intros filename; destruct (store !! filename) as [e|] eqn:Hf; [|done];
             case_bool_decide as Heq; [|done]; subst filename;
             rewrite Hname in Hf; injection Hf as <-; by rewrite Hfile, ?Hold, ?Hrm).
      exists (delete name store), (deleted_count + 1). split; [done|]. split.
      + intros filename. case (decide (filename = name)) as [->|Hne].
        * rewrite lookup_delete_eq, Hname, bool_decide_eq_true_2 by done.
          by rewrite Hfile, Hold, Hrm.
        * rewrite lookup_delete_ne by done.
          destruct (store !! filename); [|done].
          by rewrite bool_decide_eq_false_2.
      + rewrite map_size_delete, Hname.
        assert (base.size store <> 0%nat) as Hsize.
        { intros Hempty%map_size_empty_inv. by rewrite Hempty in Hname. }
        lia.
    - exists store, deleted_count. split; [done|]. split; [|done].
      intros filename. destruct (store !! filename) as [e|] eqn:Hf; [|done].
      case_bool_decide as Heq; [|done]. subst filename. by rewrite Hname in Hf. }
  destruct Hround as (store1 & count1 & -> & Hstore1 & Hcount1).
  destruct (IH store1 count1) as (store' & count' & -> & Hstore' & Hcount').
  exists store', count'. split; [done|]. split; [|lia].
  intros filename. rewrite Hstore', Hstore1.
  destruct (store !! filename) as [entry|]; [|done].
  destruct (swept time elapsed exceeds expire_hours current_time entry) eqn:Hswept.
  - rewrite !andb_true_r. case_bool_decide as Heq.
    + by rewrite bool_decide_eq_true_2 by (subst; left).
    + rewrite Hswept, andb_true_r.
      case_bool_decide as Hin.
      * by rewrite bool_decide_eq_true_2 by by right.
      * rewrite bool_decide_eq_false_2; [done|].
        by intros [?|?]%elem_of_cons.
  - by rewrite !andb_false_r, Hswept, andb_false_r.
Qed.

Lemma cleanup_result expire_hours current_time (store : gmap string (dir_entry time)) :
  exists store',
    cleanup_expired_files time elapsed exceeds expire_hours current_time (Some store)
    = (Z.of_nat (base.size store) - Z.of_nat (base.size store'), Some store') /\
    forall filename,
      store' !! filename
      = match store !! filename with
        | Some entry =>
            if swept time elapsed exceeds expire_hours current_time entry
            then None else Some entry
        | None => None
        end.
Proof.
  unfold cleanup_expired_files. cbv zeta.
  destruct (cleanup_loop current_time expire_hours (listdir time store) store 0)
    as (store' & count & -> & Hstore' & Hcount).
  exists store'. split; [f_equal; lia|].
  intros filename. rewrite Hstore'.
  destruct (store !! filename) as [entry|] eqn:Hf; [|done].
  rewrite bool_decide_eq_true_2; [done|].
  unfold listdir. apply list_elem_of_fmap. exists (filename, entry).
  split; [done|]. by apply elem_of_map_to_list.
Qed.

(** X13. A sweep of an existing download directory removes exactly the
    regular files whose age exceeds the expiry and that [os.remove] can
    remove; subdirectories, files that are not old enough and files whose
    removal fails stay, unchanged; and the number returned is the number
    of entries removed. *)
Theorem cleanup_removes_expired expire_hours current_time
    (store : gmap string (dir_entry time)) :
  exists store',
    cleanup_expired_files time elapsed exceeds expire_hours current_time (Some store)
    = (Z.of_nat (base.size store) - Z.of_nat (base.size store'), Some store') /\
    (forall filename entry,
        store' !! filename = Some entry <->
        store !! filename = Some entry /\
        (is_file entry = false \/
         exceeds (elapsed current_time (mtime entry)) (expire_hours * 3600) = false \/
         removable entry = false)) /\
    store' ⊆ store.
Proof.
  destruct (cleanup_result expire_hours current_time store) as (store' & Hrun & Hstore').
  assert (forall filename entry,
             store' !! filename = Some entry <->
             store !! filename = Some entry /\
             swept time elapsed exceeds expire_hours current_time entry = false)
    as Hiff.
  { intros filename entry. rewrite Hstore'.
    destruct (store !! filename) as [e|]; [|by split; [|intros [? _]]].
    destruct (swept time elapsed exceeds expire_hours current_time e) eqn:Hs.
    - split; [done|]. intros [[= ->] ?]. congruence.
    - split; [by intros [= ->] | by intros [? _]]. }
  exists store'. split; [done|]. split.
  - intros filename entry. rewrite Hiff. unfold swept.
    rewrite !andb_false_iff. tauto.
  - apply map_subseteq_spec. intros filename entry Hentry.
    by apply Hiff in Hentry as [? _].
Qed.

(** X14. A second sweep at the same time and with the same expiry finds
    nothing to remove: it returns 0 and leaves the directory as the first
    sweep left it. *)
Theorem cleanup_idempotent expire_hours current_time
    (store store' : gmap string (dir_entry time)) deleted_count :
  cleanup_expired_files time elapsed exceeds expire_hours current_time (Some store)
  = (deleted_count, Some store') ->
  cleanup_expired_files time elapsed exceeds expire_hours current_time (Some store')
  = (0, Some store').
Proof.
  intros Hfirst.
  destruct (cleanup_result expire_hours current_time store) as (s1 & Hrun1 & Hs1).
  rewrite Hfirst in Hrun1. injection Hrun1 as _ <-.
  destruct (cleanup_result expire_hours current_time store') as (s2 & Hrun2 & Hs2).
  assert (s2 = store') as ->.
  { apply map_eq. intros filename. rewrite Hs2, Hs1.
    destruct (store !! filename) as [entry|]; [|done].
    destruct (swept time elapsed exceeds expire_hours current_time entry) eqn:Hs;
      [done | by rewrite Hs]. }
  rewrite Hrun2. f_equal. lia.
Qed.

End RetentionProperties.

Example cleanup_sample :
  cleanup_expired_files Z Z.sub Z.gtb 24 100000 (Some sample_store)
  = (1, Some (delete "old.txt" sample_store)).
Proof. by vm_compute. Qed.

Lemma cleanup_idempotent_witness :
  cleanup_expired_files Z Z.sub Z.gtb 24 100000
                        (Some (delete "old.txt" sample_store))
  = (0, Some (delete "old.txt" sample_store)).
Proof.
  apply (cleanup_idempotent Z Z.sub Z.gtb 24 100000 sample_store _ 1).
  by vm_compute.
Defined.

(** ** Import of the table *)

(** The loop for any batch size of at least one: the table and the rows
    waiting in the batch are together the old table and the rows of five
    fields read so far, and the counts add up. *)
Lemma import_loop batch_size rows :
  forall state,
  let state' := foldl (import_round batch_size) state rows in
  table state' ++ data_batch state'
  = table state ++ data_batch state ++ List.filter has_five_fields rows /\
  insert_count state'
  = insert_count state + Z.of_nat (length (List.filter has_five_fields rows)) /\
  insert_count state' + skipped_count state'
  = insert_count state + skipped_count state + Z.of_nat (length rows).
Proof.
  induction rows as [|row rows IH]; intros state; cbn [foldl].
  { cbn. rewrite app_nil_r. repeat split; lia. }
  cbv zeta in IH |- *.
  destruct (IH (import_round batch_size state row)) as (Htable & Hins & Hsum).
  assert (table (import_round batch_size state row)
            ++ data_batch (import_round batch_size state row)
          = table state ++ data_batch state
              ++ (if has_five_fields row then [row] else []) /\
          insert_count (import_round batch_size state row)
          = insert_count state + (if has_five_fields row then 1 else 0) /\
          insert_count (import_round batch_size state row)
            + skipped_count (import_round batch_size state row)
          = insert_count state + skipped_count state + 1) as (Ht & Hi & Hs).
  { unfold import_round, has_five_fields.
    destruct (Z.of_nat (length row) =? 5).
    - destruct (batch_size <=? _);
        cbn [table data_batch insert_count skipped_count];
        unfold _batch_insert; rewrite ?app_nil_r, ?app_assoc;
        repeat split; lia || done.
    - cbn [table data_batch insert_count skipped_count].
      rewrite !app_nil_r. repeat split; lia || done. }
  split; [|split].
  - rewrite Htable, (app_assoc (table _)), Ht, <- !app_assoc. cbn [List.filter].
    by destruct (has_five_fields row).
  - rewrite Hins, Hi. cbn [List.filter].
    destruct (has_five_fields row); cbn [length]; lia.
  - rewrite Hsum, Hs. cbn [length]. lia.
Qed.

(** X15. [_read_and_import_csv] skips the header and appends to the
    table exactly the rows of five fields, in the order of the file,
    whatever the place of the batch boundaries; the count of imported
    rows is their number and the two counts add up to the number of rows
    after the header.  A file without any row gives [False] and leaves
    the table as it was. *)
Theorem read_and_import_csv_rows table0 reader :
  match reader with
  | [] => _read_and_import_csv table0 reader = (false, table0, 0, 0)
  | header :: rows =>
      exists imported skipped,
        _read_and_import_csv table0 reader
        = (true, table0 ++ List.filter has_five_fields rows, imported, skipped) /\
        imported = Z.of_nat (length (List.filter has_five_fields rows)) /\
        imported + skipped = Z.of_nat (length rows)
  end.
Proof.
  destruct reader as [|header rows]; [done|].
  unfold _read_and_import_csv. cbv zeta.
  destruct (import_loop 1000 rows
              {| table := table0; data_batch := [];
                 insert_count := 0; skipped_count := 0 |})
    as (Htable & Hins & Hsum).
  cbv zeta in Htable, Hins, Hsum.
  cbn [table data_batch insert_count skipped_count app] in Htable, Hins, Hsum.
  set (state := foldl (import_round 1000) _ rows) in *.
  exists (insert_count state), (skipped_count state).
  split; [|split; [exact Hins | lia]].
  f_equal. f_equal. f_equal. rewrite <- Htable.
  by destruct (data_batch state); [rewrite app_nil_r|].
Qed.

Example import_sample :
  _read_and_import_csv [] sample_csv
  = (true, [ ["138"; "0013"; "北京"; "北京"; "1"];
             ["139"; "0571"; "浙江"; "杭州"; "2"] ], 2, 2).
Proof. by vm_compute. Qed.

Lemma import_data_unfold force reader db :
  import_data force (Some reader) db
  = if negb force && bool_decide (is_Some db) && (0 <? get_db_record_count db)
    then (true, db)
    else
      let '(ok, table, _, _) :=
        _read_and_import_csv (if force then [] else default [] db) reader in
      (ok, Some table).
Proof.
  unfold import_data. destruct (_ && _ && _); [done|]. cbv zeta.
  rewrite bool_decide_eq_true_2 by done. by destruct force.
Qed.

(** X16. When the CSV file has a header and the import is forced, or
    the database is missing or has no record, [import_data] succeeds and
    the table afterwards holds exactly the rows of five fields of the
    file, in order: nothing of an earlier content stays. *)
Theorem import_data_loads force header rows db :
  force = true \/ get_db_record_count db = 0 ->
  import_data force (Some (header :: rows)) db
  = (true, Some (List.filter has_five_fields rows)).
Proof.
  intros Hfresh. rewrite import_data_unfold.
  assert ((if force then [] else default [] db) = []) as ->.
  { destruct force; [done|]. destruct Hfresh as [[=]|Hcount].
    destruct db as [[|row table1]|]; [done| |done]. cbn in Hcount. lia. }
  destruct (read_and_import_csv_rows [] (header :: rows))
    as (imported & skipped & -> & _).
  destruct (_ && _ && _) eqn:Hskip; [|done].
  apply andb_true_iff in Hskip as [[Hforce%negb_true_iff _]%andb_true_iff Hcount%Z.ltb_lt].
  destruct Hfresh; [congruence | lia].
Qed.

Lemma import_data_loads_witness :
  import_data true (Some sample_csv) (Some [["130"; "0000"; "x"; "y"; "3"]])
  = (true, Some [ ["138"; "0013"; "北京"; "北京"; "1"];
                  ["139"; "0571"; "浙江"; "杭州"; "2"] ]).
Proof.
  apply (import_data_loads true _ (tail sample_csv)). by left.
Defined.

(** X17. Importing again without force changes nothing: once an import
    has loaded at least one row, a second [import_data] on the same file
    succeeds and leaves the table as it is, so a restart does not
    duplicate the rows.  A missing CSV file gives [False] and leaves the
    database as it is. *)
Theorem import_data_again force header rows db :
  force = true \/ get_db_record_count db = 0 ->
  List.filter has_five_fields rows <> [] ->
  exists db',
    import_data force (Some (header :: rows)) db = (true, db') /\
    import_data false (Some (header :: rows)) db' = (true, db') /\
    import_data false None db' = (false, db').
Proof.
  intros Hfresh Hrows. exists (Some (List.filter has_five_fields rows)).
  split; [by apply import_data_loads|]. split; [|done].
  rewrite import_data_unfold. cbn [negb andb get_db_record_count].
  rewrite bool_decide_eq_true_2 by done. cbn [andb].
  destruct (List.filter has_five_fields rows); [done|]. done.
Qed.

Lemma import_data_again_witness :
  exists db',
    import_data false (Some sample_csv) None = (true, db') /\
    import_data false (Some sample_csv) db' = (true, db').
Proof.
  destruct (import_data_again false (hd [] sample_csv) (tail sample_csv) None)
    as (db' & Hfirst & Hsecond & _); [by right | by vm_compute |].
  exists db'. split; [exact Hfirst | exact Hsecond].
Defined.

(** ** Configuration *)

Example merge_sample :
  _merge_config sample_default sample_user
  = [ ("generator", Dict [ ("max_count", Scalar 5000);
                           ("batch_size", Scalar 500);
                           ("file_size_limit", Scalar 20) ]);
      ("download", Dict [ ("expire_hours", Scalar 24) ]) ].
Proof. reflexivity. Qed.

Example split_dots_sample :
  split_dots "generator.max_count" = ["generator"; "max_count"] /\
  split_dots "" = [""] /\ split_dots "app." = ["app"; ""].
Proof. by repeat split. Qed.

Section ConfigurationProperties.

Context {scalar : Type}.
Implicit Types (d user result : list (string * cfg scalar)) (value : cfg scalar).

Lemma dict_get_set_eq key value d : dict_get key (dict_set key value d) = Some value.
Proof.
  induction d as [|[k v] d IH]; cbn [dict_set dict_get].
  - by rewrite String.eqb_refl.
  - destruct (String.eqb k key) eqn:Hk; cbn [dict_get]; by rewrite Hk.
Qed.

Lemma dict_get_set_ne key key' value d :
  key <> key' -> dict_get key' (dict_set key value d) = dict_get key' d.
Proof.
  intros Hne. induction d as [|[k v] d IH]; cbn [dict_set dict_get].
  - by apply String.eqb_neq in Hne as ->.
  - destruct (String.eqb_spec k key) as [->|Hk]; cbn [dict_get].
    + by apply String.eqb_neq in Hne as ->.
    + by rewrite IH.
Qed.

Lemma dict_get_None key d : key ∉ d.*1 -> dict_get key d = None.
Proof.
  induction d as [|[k v] d IH]; [done|]. cbn [dict_get fmap list_fmap fst].
  intros [Hk Hd]%not_elem_of_cons.
  destruct (String.eqb_spec k key) as [->|_]; [done | by apply IH].
Qed.

Lemma merge_value_dict result user :
  merge_value (Some (Dict result)) (Dict user) = Dict (_merge_config result user).
Proof.
  cbn [merge_value]. f_equal. unfold _merge_config. cbv zeta.
  revert result. induction user as [|[key value] user IH]; intros result; [done|].
  cbn [foldl]. apply IH.
Qed.

(** One level of the merge: under a key the user sets, what
    [merge_value] makes of the two values; under any other key, the
    default. *)
Lemma merge_lookup key d user :
  NoDup user.*1 ->
  dict_get key (_merge_config d user)
  = match dict_get key user with
    | Some value => Some (merge_value (dict_get key d) value)
    | None => dict_get key d
    end.
Proof.
  unfold _merge_config. cbv zeta. revert d.
  induction user as [|[k v] user IH]; intros d Hnodup; [done|].
  cbn [fmap list_fmap fst] in Hnodup. apply NoDup_cons in Hnodup as [Hk Hnodup].
  cbn [foldl dict_get]. rewrite (IH _ Hnodup).
  destruct (String.eqb_spec k key) as [->|Hne].
  - by rewrite (dict_get_None _ _ Hk), dict_get_set_eq.
  - by rewrite dict_get_set_ne.
Qed.

Lemma well_formed_items user :
  well_formed (Dict user) ->
  NoDup user.*1 /\
  forall key value, dict_get key user = Some value -> well_formed value.
Proof.
  intros [Hnodup Hall]. split; [done|]. clear Hnodup.
  induction user as [|[k v] user IH]; intros key value Hget; [done|].
  destruct Hall as [Hv Hall]. cbn [dict_get] in Hget.
  destruct (String.eqb k key); [by injection Hget as <- | by eapply IH].
Qed.

(** X18. A setting of the user always takes effect: when the user's
    configuration holds a value that is not a dictionary at a dotted
    path, [get] on the merged configuration returns that value, whatever
    the default configuration holds there. *)
Theorem merged_get_user_setting d user key (v : scalar) default :
  well_formed (Dict user) ->
  walk (Dict user) (split_dots key) = Some (Scalar v) ->
  get (_merge_config d user) key default = Scalar v.
Proof.
  intros Hwf Hwalk. unfold get. cbv zeta.
  assert (walk (Dict (_merge_config d user)) (split_dots key) = Some (Scalar v))
    as ->; [|done].
  revert d user Hwf Hwalk.
  induction (split_dots key) as [|k keys IH]; intros d user Hwf Hwalk; [done|].
  destruct (well_formed_items user Hwf) as [Hnodup Hitems].
  cbn [walk] in Hwalk |- *. rewrite merge_lookup by done.
  destruct (dict_get k user) as [value|] eqn:Hk; [|done].
  destruct value as [x|items].
  - destruct keys; [|done]. by destruct (dict_get k d) as [[]|].
  - destruct (dict_get k d) as [[y|default_items]|].
    + done.
    + rewrite merge_value_dict. apply IH; [|done]. by eapply Hitems.
    + done.
Qed.

Lemma silent_walk user keys :
  silent_on user keys -> walk (Dict user) keys = None /\ keys <> [].
Proof.
  induction 1 as [user k keys Hk|user k items keys Hk _ [IH _]];
    cbn [walk]; by rewrite Hk.
Qed.

(** X19. The defaults fill the gaps: on a dotted path about which the
    user's configuration is silent, [get] on the merged configuration
    returns what it returns on the default configuration. *)
Theorem merged_get_default d user key default :
  well_formed (Dict user) ->
  silent_on user (split_dots key) ->
  get (_merge_config d user) key default = get d key default.
Proof.
  intros Hwf Hsilent. unfold get. cbv zeta.
  assert (walk (Dict (_merge_config d user)) (split_dots key)
          = walk (Dict d) (split_dots key)) as ->; [|done].
  revert d Hwf.
  induction Hsilent as [user k keys Hk|user k items keys Hk Hsilent IH];
    intros d Hwf; destruct (well_formed_items user Hwf) as [Hnodup Hitems];
    cbn [walk]; rewrite merge_lookup, Hk by done; [done|].
  destruct (silent_walk _ _ Hsilent) as [Hnone Hkeys].
  destruct (dict_get k d) as [[y|default_items]|].
  - cbn [merge_value]. rewrite Hnone. by destruct keys.
  - rewrite merge_value_dict. apply IH. by eapply Hitems.
  - cbn [merge_value]. by rewrite Hnone.
Qed.

End ConfigurationProperties.

Lemma merged_get_user_setting_witness :
  get (_merge_config sample_default sample_user) "generator.max_count" (Scalar 0)
  = Scalar 5000.
Proof.
  apply (merged_get_user_setting sample_default sample_user
           "generator.max_count" 5000 (Scalar 0)).
  - cbn. repeat first [done | apply NoDup_singleton | split].
  - reflexivity.
Defined.

Lemma merged_get_default_witness :
  get (_merge_config sample_default sample_user) "generator.batch_size" (Scalar 0)
  = get sample_default "generator.batch_size" (Scalar 0).
Proof.
  apply (merged_get_default sample_default sample_user
           "generator.batch_size" (Scalar 0)).
  - cbn. repeat first [done | apply NoDup_singleton | split].
  - eapply silent_below; [reflexivity|]. by apply silent_here.
Defined.

(** ** Queries on the table *)

(** X21. [get_provinces] returns the provinces of the table, and
    [get_cities] the cities of the rows of the given province: each once,
    in strictly ascending order. *)
Theorem places_distinct_sorted db province :
  StronglySorted str_lt (get_provinces db) /\
  (forall p, p ∈ get_provinces db <-> exists row, row ∈ db /\ loc_province row = p) /\
  StronglySorted str_lt (get_cities db province) /\
  (forall c, c ∈ get_cities db province <->
             exists row, row ∈ db /\ loc_province row = province /\ loc_city row = c).
Proof.
  unfold get_provinces, get_cities.
  split; [apply sort_set_ascending|]. split; [|split; [apply sort_set_ascending|]].
  - intros p. rewrite merge_sort_Permutation, elem_of_elements, elem_of_list_to_set.
    rewrite list_elem_of_fmap. split; intros (row & ? & ?); exists row; by split.
  - intros c. rewrite merge_sort_Permutation, elem_of_elements, elem_of_list_to_set.
    rewrite list_elem_of_fmap. split.
    + intros (row & -> & Hrow). apply list_elem_of_In, filter_In in Hrow as [Hrow Hp].
      exists row. apply String.eqb_eq in Hp. by rewrite list_elem_of_In.
    + intros (row & Hrow & Hp & <-). exists row. split; [done|].
      apply list_elem_of_In, filter_In. split; [by apply list_elem_of_In|].
      by apply String.eqb_eq.
Qed.
